(** * ScandEval: the OpenAI tokenizer and model wrappers

    A shallow embedding of [src/scandeval/openai_models.py]: the class
    [OpenAITokenizer] (construction, batch encoding, decoding) and the
    class [OpenAIModel] (the [generate] method with its probe of the
    remote API, its retry loop and the reassembly of the output tensor).

    Conventions.
    - Token ids are integers ([Z]).  Every tiktoken vocabulary is far
      below [2^24], so storing ids in a float32 [Tensor(...)] and reading
      them back with [.long()] is the identity on them; tensors are kept
      as lists of [Z].
    - Python exceptions are values of [exn]; code that can raise returns
      a [result].
    - Python strings are [string]s that hold the UTF-8 bytes of the text;
      [str.strip()] removes every Unicode white space character.
    - The libraries the module calls (tiktoken, torch, transformers,
      openai) are not part of the repository: the BPE encoding is a
      record of functions, the remote API is an oracle, and the torch
      helpers are modelled by what they compute on lists. *)

From Stdlib Require Import Ascii String.
From stdpp Require Import base numbers list list_numbers strings gmap.

(** ** Exceptions and results *)

Inductive exn :=
  | RateLimitError                     (* openai.error.RateLimitError *)
  | APIError                           (* openai.error.APIError *)
  | InvalidRequestError (str_e : string) (* openai.error.InvalidRequestError; [str(e)] *)
  | OpenAIError (kind : string)        (* any other openai.error class *)
  | TypeError
  | AttributeError (name : string)
  | IndexError
  | ValueError
  | KeyError
  | RuntimeError.

Global Instance exn_eq_dec : EqDecision exn.
Proof. solve_decision. Defined.

Inductive result (A : Type) :=
  | Ok (a : A)
  | Err (e : exn).
Global Arguments Ok {A} a.
Global Arguments Err {A} e.

Global Instance result_ret : MRet result := λ A a, Ok a.
Global Instance result_bind : MBind result := λ A B f r,
  match r with Ok a => f a | Err e => Err e end.
Global Instance result_fmap : FMap result := λ A B f r,
  match r with Ok a => Ok (f a) | Err e => Err e end.

(** ** Python and torch helpers *)

(** [x or d] on an optional integer: [None] and [0] are both falsy. *)
Definition py_or (x : option Z) (d : Z) : Z :=
  match x with
  | Some v => if bool_decide (v = 0%Z) then d else v
  | None => d
  end.

(** [token_id != pad] where [pad] may be [None]: an integer never equals
    [None]. *)
Definition py_ne (token_id : Z) (pad : option Z) : bool :=
  match pad with
  | Some p => bool_decide (token_id ≠ p)
  | None => true
  end.

(** [torch.nn.utils.rnn.pad_sequence(sequences, batch_first=True,
    padding_value=v)]: every sequence is extended on the right to the
    length of the longest one; an empty list of sequences is refused. *)
Definition pad_to (max_len : nat) (padding_value : Z) (s : list Z) : list Z :=
  s ++ replicate (max_len - length s) padding_value.

Definition pad_sequence (sequences : list (list Z)) (padding_value : Z)
    : result (list (list Z)) :=
  match sequences with
  | [] => Err RuntimeError
  | _ =>
      let max_len := max_list (length <$> sequences) in
      Ok (pad_to max_len padding_value <$> sequences)
  end.

(** [str.strip()].  A Python string is held as its UTF-8 bytes.  The
    characters [strip] removes are those for which [str.isspace] holds:
    U+0009-U+000D, U+001C-U+0020, U+0085, U+00A0, U+1680, U+2000-U+200A,
    U+2028, U+2029, U+202F, U+205F and U+3000, here with the bytes of
    each. *)
Definition utf8 (bytes : list nat) : string :=
  string_of_list_ascii (ascii_of_nat <$> bytes).

Definition white_space : list string :=
  utf8 <$>
    [[9]; [10]; [11]; [12]; [13]; [28]; [29]; [30]; [31]; [32];
     [194; 133]; [194; 160]; [225; 154; 128];
     [226; 128; 128]; [226; 128; 129]; [226; 128; 130]; [226; 128; 131];
     [226; 128; 132]; [226; 128; 133]; [226; 128; 134]; [226; 128; 135];
     [226; 128; 136]; [226; 128; 137]; [226; 128; 138];
     [226; 128; 168]; [226; 128; 169]; [226; 128; 175];
     [226; 129; 159]; [227; 128; 128]].

(** [s] without its prefix [p], if it starts with [p]. *)
Fixpoint drop_prefix (p s : string) : option string :=
  match p, s with
  | EmptyString, _ => Some s
  | String a p', String b s' =>
      if Ascii.eqb a b then drop_prefix p' s' else None
  | String _ _, EmptyString => None
  end.

(** [s] without the one of [spaces] it starts with, if any. *)
Definition drop_space (spaces : list string) (s : string) : option string :=
  foldr (λ p other,
           match drop_prefix p s with Some rest => Some rest | None => other end)
        None spaces.

(** Leading [spaces] are dropped one after the other; every step takes a
    byte at least, so the length of the string is fuel enough. *)
Fixpoint strip_left (spaces : list string) (fuel : nat) (s : string) : string :=
  match fuel with
  | O => s
  | S fuel =>
      match drop_space spaces s with
      | Some rest => strip_left spaces fuel rest
      | None => s
      end
  end.

Definition lstrip (s : string) : string :=
  strip_left white_space (String.length s) s.

Definition rstrip (s : string) : string :=
  String.rev
    (strip_left (String.rev <$> white_space) (String.length s) (String.rev s)).

Definition strip (s : string) : string := rstrip (lstrip s).

(** [needle in hay] on strings. *)
Fixpoint contains (needle hay : string) : bool :=
  String.prefix needle hay ||
  match hay with
  | String _ hay' => contains needle hay'
  | EmptyString => false
  end.

(** ** Configuration objects *)

Module ModelConfig.
Record t := { model_id : string }.
End ModelConfig.

(** The Hugging Face configuration: the three token ids the wrapper reads,
    each of which may be [None]. *)
Module PretrainedConfig.
Record t := {
  bos_token_id : option Z;
  eos_token_id : option Z;
  pad_token_id : option Z
}.
End PretrainedConfig.

(** ** The tiktoken encoding

    [encode text allowed_special] and [decode tokens]; both can raise. *)
Module Encoding.
Record t := {
  encode : string → gset string → result (list Z);
  decode : list Z → result string
}.
End Encoding.

(** ** OpenAITokenizer *)

Module OpenAITokenizer.

Record t := {
  model_config : ModelConfig.t;
  hf_model_config : PretrainedConfig.t;
  encoding : Encoding.t;
  bos_token_id : Z;
  cls_token_id : Z;
  eos_token_id : Z;
  sep_token_id : Z;
  pad_token_id : Z;
  bos_token : string;
  cls_token : string;
  eos_token : string;
  sep_token : string;
  pad_token : string
}.

(** The argument of [__call__]: one string or a list of strings. *)
Inductive text_arg :=
  | Str (text : string)
  | StrList (texts : list string).

Section with_tiktoken.
(** [tiktoken.encoding_for_model]. *)
Variable encoding_for_model : string → result Encoding.t.

Definition init (model_config : ModelConfig.t)
    (hf_model_config : PretrainedConfig.t) : result t :=
  encoding ← encoding_for_model (ModelConfig.model_id model_config);
  let bos_token_id := py_or (PretrainedConfig.bos_token_id hf_model_config) (-1) in
  let cls_token_id := bos_token_id in
  let eos_token_id := py_or (PretrainedConfig.eos_token_id hf_model_config) (-1) in
  let sep_token_id := eos_token_id in
  let pad_token_id := py_or (PretrainedConfig.pad_token_id hf_model_config) (-1) in
  bos_token ← Encoding.decode encoding [bos_token_id];
  let cls_token := bos_token in
  eos_token ← Encoding.decode encoding [eos_token_id];
  let sep_token := eos_token in
  mret {| model_config := model_config;
          hf_model_config := hf_model_config;
          encoding := encoding;
          bos_token_id := bos_token_id;
          cls_token_id := cls_token_id;
          eos_token_id := eos_token_id;
          sep_token_id := sep_token_id;
          pad_token_id := pad_token_id;
          bos_token := bos_token;
          cls_token := cls_token;
          eos_token := eos_token;
          sep_token := sep_token;
          pad_token := "<pad>" |}.
End with_tiktoken.

Definition allowed_special (self : t) : gset string :=
  {[ bos_token self; eos_token self; cls_token self; sep_token self;
     pad_token self ]}.

(** [__call__]; the value is the [input_ids] entry of the returned
    [BatchEncoding]. *)
Definition call (self : t) (text : text_arg) : result (list (list Z)) :=
  let text_list := match text with Str s => [s] | StrList l => l end in
  input_ids ←
    mapM (λ text, Encoding.encode (encoding self) text (allowed_special self))
         text_list;
  pad_sequence input_ids (pad_token_id self).

Definition decode (self : t) (token_ids : list Z) : result string :=
  let token_ids :=
    filter (λ token_id, token_id ≠ pad_token_id self) token_ids in
  Encoding.decode (encoding self) token_ids.

End OpenAITokenizer.

(** ** The world [generate] runs in

    A [GenerationConfig] is a Python object whose attributes are set by
    name: a finite map from attribute names to values, living in a heap so
    that the caller and [generate] can hold the same object.  The remote
    API is an oracle that answers a request after having seen the events
    so far; every request, every [sleep] and every debug message is
    appended to the trace. *)

Abbreviation loc := positive.

Module Tensor.
(** The tensors [generate] receives and returns: [dim() = 1] or
    [dim() = 2], given by [tolist()]. *)
Inductive t :=
  | Tensor1 (ids : list Z)
  | Tensor2 (rows : list (list Z)).

Definition dim (x : t) : nat :=
  match x with Tensor1 _ => 1 | Tensor2 _ => 2 end.
End Tensor.

(** The value of the local variable [inputs_list]: a flat list of ids for
    a single sequence, a list of lists for a batch. *)
Inductive InputsList :=
  | Flat (ids : list Z)
  | Nested (rows : list (list Z)).

(** What [for input_ids in inputs_list] binds [input_ids] to. *)
Inductive Item :=
  | ItemInt (token_id : Z)
  | ItemList (ids : list Z).

Definition items (inputs_list : InputsList) : list Item :=
  match inputs_list with
  | Flat ids => ItemInt <$> ids
  | Nested rows => ItemList <$> rows
  end.

(** One element of [choices] in a response: a completion choice has
    [.text], a chat choice has [.message.content]. *)
Inductive Choice :=
  | TextChoice (text : string)
  | MessageChoice (content : string).

Record Response := { choices : list Choice }.

Section with_python_values.
(** Attribute values of a [GenerationConfig] are opaque Python objects;
    [generate] only passes them on, except for [repetition_penalty], to
    which it applies [v - 1.0]. *)
Context {pyval : Type}.

Record Sampling := {
  max_tokens : pyval;
  temperature : pyval;
  top_p : pyval;
  n : pyval;
  frequency_penalty : pyval;
  stop : list string
}.

Inductive Request :=
  (* openai.Completion.create(model=.., prompt="Test", max_tokens=10) *)
  | CompletionProbe (model : string) (prompt : string) (max_tokens : Z)
  (* openai.Completion.create(model=.., prompt=inputs_list, ...) *)
  | Completion (model : string) (prompt : InputsList) (params : Sampling)
  (* openai.ChatCompletion.create(model=.., messages=[dict(role, content)], ...) *)
  | ChatCompletion (model : string) (messages : list (string * string))
      (params : Sampling).

Inductive Event :=
  | ERequest (r : Request)
  | ESleep (seconds : Z)
  | EDebug (msg : string).

Definition is_sleep (ev : Event) : bool :=
  match ev with ESleep _ => true | _ => false end.

Definition is_request (ev : Event) : bool :=
  match ev with ERequest _ => true | _ => false end.

Record World := {
  heap : gmap loc (gmap string pyval);
  trace : list Event
}.

Inductive Outcome (A : Type) :=
  | Returned (a : A)
  | Raised (e : exn)
  | OutOfFuel.
Global Arguments Returned {A} a.
Global Arguments Raised {A} e.
Global Arguments OutOfFuel {A}.

Definition M (A : Type) : Type := World → Outcome A * World.

Global Instance M_ret : MRet M := λ A a w, (Returned a, w).
Global Instance M_bind : MBind M := λ A B f m w,
  match m w with
  | (Returned a, w') => f a w'
  | (Raised e, w') => (Raised e, w')
  | (OutOfFuel, w') => (OutOfFuel, w')
  end.

Definition raise {A} (e : exn) : M A := λ w, (Raised e, w).

Definition lift {A} (r : result A) : M A :=
  match r with Ok a => mret a | Err e => raise e end.

Definition emit (ev : Event) : M unit := λ w,
  (Returned (), {| heap := heap w; trace := trace w ++ [ev] |}).

(** [time.sleep] and [logger.debug]. *)
Definition sleep (seconds : Z) : M unit := emit (ESleep seconds).
Definition logger_debug (msg : string) : M unit := emit (EDebug msg).

(** [setattr(obj, key, value)] and attribute reads. *)
Definition setattr (l : loc) (key : string) (value : pyval) : M unit := λ w,
  (Returned (), {| heap := alter (<[key := value]>) l (heap w); trace := trace w |}).

Definition getattr (l : loc) (name : string) : M pyval := λ w,
  match heap w !! l ≫= (.!! name) with
  | Some v => (Returned v, w)
  | None => (Raised (AttributeError name), w)
  end.

Definition alloc (obj : gmap string pyval) : M loc := λ w,
  let l := fresh (dom (heap w)) in
  (Returned l, {| heap := <[l := obj]> (heap w); trace := trace w |}).

(** [xs[i]]. *)
Definition index {A} (xs : list A) (i : nat) : M A :=
  match xs !! i with Some x => mret x | None => raise IndexError end.
End with_python_values.

Global Arguments Sampling : clear implicits.
Global Arguments Request : clear implicits.
Global Arguments Event : clear implicits.
Global Arguments World : clear implicits.
Global Arguments M : clear implicits.

(** Setting attributes on an object one after the other, in the order of
    the keyword arguments. *)
Definition set_attrs {pyval} (obj : gmap string pyval)
    (kwargs : list (string * pyval)) : gmap string pyval :=
  foldl (λ obj kv, <[kv.1 := kv.2]> obj) obj kwargs.

(** ** OpenAIModel *)

Module OpenAIModel.

(** The dataset and benchmark configurations and the device are stored
    by [__init__] and never read by [generate]; they are left out. *)
Record t := {
  model_config : ModelConfig.t;
  config : PretrainedConfig.t;
  tokenizer : OpenAITokenizer.t
}.

(** How the body of the [while True] loop ends when it does not raise:
    at a [break], or at the end of the body, after which the loop goes
    round again. *)
Inductive BodyEnd :=
  | Break (completion_ids_list : list (list Z))
  | EndOfBody (completion_ids_list : list (list Z)).

Section generate.
Context {pyval : Type}.
(** The Python expression [v - 1.0]. *)
Variable sub_one : pyval → result pyval.
(** The attributes of [GenerationConfig()] built with no arguments. *)
Variable GenerationConfig_defaults : gmap string pyval.
(** The remote API: the answer to a request, given the events so far. *)
Variable openai : list (Event pyval) → Request pyval → result Response.

Local Abbreviation M := (M pyval).

(** [GenerationConfig] called with keyword arguments: the defaults,
    with every keyword argument set on top. *)
Definition GenerationConfig (kwargs : list (string * pyval))
    : gmap string pyval :=
  set_attrs GenerationConfig_defaults kwargs.

(** [openai.Completion.create] and [openai.ChatCompletion.create]. *)
Definition create (req : Request pyval) : M Response := λ w,
  let w' := {| heap := heap w; trace := trace w ++ [ERequest req] |} in
  match openai (trace w) req with
  | Ok resp => (Returned resp, w')
  | Err e => (Raised e, w')
  end.

(** Lines 173-177. *)
Fixpoint apply_kwargs (generation_config : loc)
    (generation_kwargs : list (string * pyval)) : M unit :=
  match generation_kwargs with
  | [] => mret ()
  | (key, value) :: rest =>
      setattr generation_config key value;;
      apply_kwargs generation_config rest
  end.

Definition resolve_generation_config (generation_config : option loc)
    (generation_kwargs : list (string * pyval)) : M loc :=
  match generation_config with
  | None => alloc (GenerationConfig generation_kwargs)
  | Some generation_config =>
      apply_kwargs generation_config generation_kwargs;;
      mret generation_config
  end.

(** Lines 179-196. *)
Definition remove_padding (self : t) (inputs : Tensor.t) : InputsList :=
  let keep token_id :=
    py_ne token_id (PretrainedConfig.pad_token_id (config self)) in
  match inputs with
  | Tensor.Tensor2 rows => Nested (filter (λ x, keep x = true) <$> rows)
  | Tensor.Tensor1 ids => Flat (filter (λ x, keep x = true) ids)
  end.

(** Lines 198-210. *)
Definition is_chat_model (self : t) : M bool := λ w,
  match create (CompletionProbe (ModelConfig.model_id (model_config self))
                  "Test" 10) w with
  | (Returned _, w') => (Returned false, w')
  | (Raised (InvalidRequestError str_e), w') =>
      if contains "This is a chat model" str_e
      then (Returned true, w')
      else (Raised (InvalidRequestError str_e), w')
  | (Raised e, w') => (Raised e, w')
  | (OutOfFuel, w') => (OutOfFuel, w')
  end.

(** The keyword arguments shared by both requests, evaluated in source
    order. *)
Definition sampling (self : t) (generation_config : loc) : M (Sampling pyval) :=
  max_length ← getattr generation_config "max_length";
  temperature ← getattr generation_config "temperature";
  top_p ← getattr generation_config "top_p";
  num_return_sequences ← getattr generation_config "num_return_sequences";
  repetition_penalty ← getattr generation_config "repetition_penalty";
  frequency_penalty ← lift (sub_one repetition_penalty);
  mret {| max_tokens := max_length;
          temperature := temperature;
          top_p := top_p;
          n := num_return_sequences;
          frequency_penalty := frequency_penalty;
          stop := [String "010" (String "010" EmptyString);
                   OpenAITokenizer.eos_token (tokenizer self);
                   OpenAITokenizer.pad_token (tokenizer self)] |}.

(** [self.tokenizer(text.strip())["input_ids"][0].tolist()]. *)
Definition retokenize (self : t) (text : string) : M (list Z) :=
  input_ids ← lift (OpenAITokenizer.call (tokenizer self)
                      (OpenAITokenizer.Str (strip text)));
  index input_ids 0.

Definition choice_text (choice : Choice) : M string :=
  match choice with
  | TextChoice text => mret text
  | MessageChoice _ => raise (AttributeError "text")
  end.

Definition choice_message_content (choice : Choice) : M string :=
  match choice with
  | MessageChoice content => mret content
  | TextChoice _ => raise (AttributeError "message")
  end.

(** [self.tokenizer.decode(input_ids)] on what the loop variable
    holds: iterating over an integer raises [TypeError]. *)
Definition decode_item (self : t) (input_ids : Item) : M string :=
  match input_ids with
  | ItemList ids => lift (OpenAITokenizer.decode (tokenizer self) ids)
  | ItemInt _ => raise TypeError
  end.

(** Lines 216-233: the completion branch of the loop body. *)
Definition completion_branch (self : t) (generation_config : loc)
    (inputs_list : InputsList) : M (list (list Z)) :=
  params ← sampling self generation_config;
  generation_output ←
    create (Completion (ModelConfig.model_id (model_config self))
              inputs_list params);
  mapM (λ choice, text ← choice_text choice; retokenize self text)
       (choices generation_output).

(** Lines 237-262: the [for] loop of the chat branch. *)
Fixpoint chat_for (self : t) (generation_config : loc)
    (inputs : list Item) (completion_ids_list : list (list Z))
    : M (list (list Z)) :=
  match inputs with
  | [] => mret completion_ids_list
  | input_ids :: rest =>
      content ← decode_item self input_ids;
      params ← sampling self generation_config;
      single_output ←
        create (ChatCompletion (ModelConfig.model_id (model_config self))
                  [("user", content)] params);
      choice ← index (choices single_output) 0;
      content ← choice_message_content choice;
      completion_ids ← retokenize self content;
      chat_for self generation_config rest
        (completion_ids_list ++ [completion_ids])
  end.

(** Lines 214-263: the body of the [try].  The [break] belongs to the
    chat branch; the completion branch runs to the end of the body. *)
Definition try_body (self : t) (generation_config : loc)
    (inputs_list : InputsList) (is_chat_model : bool) : M BodyEnd :=
  if negb is_chat_model then
    completion_ids_list ←
      completion_branch self generation_config inputs_list;
    mret (EndOfBody completion_ids_list)
  else
    completion_ids_list ←
      chat_for self generation_config (items inputs_list) [];
    mret (Break completion_ids_list).

(** Lines 212-276: [while True] with its two [except] clauses.  One
    unit of fuel is one iteration. *)
Fixpoint while_true (fuel : nat) (self : t) (generation_config : loc)
    (inputs_list : InputsList) (is_chat_model : bool)
    : M (list (list Z)) :=
  match fuel with
  | O => λ w, (OutOfFuel, w)
  | S fuel => λ w,
      match try_body self generation_config inputs_list is_chat_model w with
      | (Returned (Break completion_ids_list), w') =>
          (Returned completion_ids_list, w')
      | (Returned (EndOfBody _), w') =>
          while_true fuel self generation_config inputs_list is_chat_model w'
      | (Raised RateLimitError, w') =>
          (logger_debug "Rate limit exceeded, trying again in a few seconds...";;
           sleep 10;;
           while_true fuel self generation_config inputs_list is_chat_model) w'
      | (Raised APIError, w') =>
          (logger_debug "Encountered an error with the OpenAI API, trying again in a few seconds...";;
           sleep 10;;
           while_true fuel self generation_config inputs_list is_chat_model) w'
      | (Raised e, w') => (Raised e, w')
      | (OutOfFuel, w') => (OutOfFuel, w')
      end
  end.

(** [LongTensor(completion_ids_list)] on a list of lists: the empty
    list gives an empty 1-D tensor, rows of one length a 2-D tensor,
    and ragged rows are refused. *)
Definition LongTensor (data : list (list Z)) : result Tensor.t :=
  match data with
  | [] => Ok (Tensor.Tensor1 [])
  | row :: rows =>
      if forallb (λ r, length r =? length row) rows
      then Ok (Tensor.Tensor2 data)
      else Err ValueError
  end.

(** Lines 278-286. *)
Definition reassemble (self : t) (multiple_inputs : bool)
    (completion_ids_list : list (list Z)) : result Tensor.t :=
  if multiple_inputs then
    padded ← pad_sequence completion_ids_list
               (OpenAITokenizer.pad_token_id (tokenizer self));
    mret (Tensor.Tensor2 padded)
  else LongTensor completion_ids_list.

Definition generate (fuel : nat) (self : t) (inputs : Tensor.t)
    (generation_config : option loc)
    (generation_kwargs : list (string * pyval)) : M Tensor.t :=
  generation_config ←
    resolve_generation_config generation_config generation_kwargs;
  let multiple_inputs := bool_decide (Tensor.dim inputs = 2) in
  let inputs_list := remove_padding self inputs in
  is_chat_model ← is_chat_model self;
  completion_ids_list ←
    while_true fuel self generation_config inputs_list is_chat_model;
  lift (reassemble self multiple_inputs completion_ids_list).
End generate.

End OpenAIModel.

(** ** Test doubles

    A byte-level encoding and scripted backends, used to run the model on
    concrete inputs. *)

Module Mock.

Definition encode (text : string) (allowed_special : gset string)
    : result (list Z) :=
  Ok ((λ c, Z.of_nat (nat_of_ascii c)) <$> list_ascii_of_string text).

Definition decode (tokens : list Z) : result string :=
  Ok (string_of_list_ascii
        (omap (λ z, if bool_decide (0 ≤ z < 256)%Z
                    then Some (ascii_of_nat (Z.to_nat z)) else None)
              tokens)).

Definition encoding : Encoding.t :=
  {| Encoding.encode := encode; Encoding.decode := decode |}.

Definition encoding_for_model (model_name : string) : result Encoding.t :=
  Ok encoding.

Definition model_config : ModelConfig.t :=
  {| ModelConfig.model_id := "mock-model" |}.

Definition hf_config (bos eos pad : option Z) : PretrainedConfig.t :=
  {| PretrainedConfig.bos_token_id := bos;
     PretrainedConfig.eos_token_id := eos;
     PretrainedConfig.pad_token_id := pad |}.

(** Attribute values are integers here. *)
Definition sub_one (v : Z) : result Z := Ok (v - 1)%Z.

Definition GenerationConfig_defaults : gmap string Z :=
  list_to_map [("max_length", 20%Z); ("temperature", 1%Z); ("top_p", 1%Z);
               ("num_return_sequences", 1%Z); ("repetition_penalty", 1%Z)].

Definition chat_indicator : string :=
  "This is a chat model and not supported in the v1/completions endpoint.".

(** A completion-style backend: one choice per input sequence. *)
Definition completion_backend (history : list (Event Z)) (req : Request Z)
    : result Response :=
  match req with
  | CompletionProbe _ _ _ => Ok {| choices := [TextChoice "Test passed"] |}
  | Completion _ (Flat _) _ => Ok {| choices := [TextChoice " ok "] |}
  | Completion _ (Nested rows) _ =>
      Ok {| choices := (λ _, TextChoice " ok ") <$> rows |}
  | ChatCompletion _ _ _ => Err (InvalidRequestError "This is not a chat model")
  end.

(** A chat-style backend: it echoes the message, and always returns
    three choices. *)
Definition chat_backend (history : list (Event Z)) (req : Request Z)
    : result Response :=
  match req with
  | ChatCompletion _ [(_, content)] _ =>
      Ok {| choices := [MessageChoice (" " +:+ content +:+ " ");
                        MessageChoice "second"; MessageChoice "third"] |}
  | ChatCompletion _ _ _ => Err (InvalidRequestError "one message expected")
  | _ => Err (InvalidRequestError chat_indicator)
  end.

Definition sleeps (history : list (Event Z)) : nat :=
  length (filter (λ ev, is_sleep ev) history).

(** A chat-style backend that turns down the first [k] chat requests,
    with a rate-limit error and a generic API error in turn. *)
Definition flaky_chat_backend (k : nat) (history : list (Event Z))
    (req : Request Z) : result Response :=
  match req with
  | ChatCompletion _ _ _ =>
      if bool_decide (sleeps history < k) then
        if Nat.even (sleeps history) then Err RateLimitError else Err APIError
      else chat_backend history req
  | _ => chat_backend history req
  end.

(** A chat-style backend that is rate limited at the first chat request
    and refuses every later one as invalid. *)
Definition refusing_chat_backend (history : list (Event Z)) (req : Request Z)
    : result Response :=
  match req with
  | ChatCompletion _ _ _ =>
      if bool_decide (sleeps history = 0) then Err RateLimitError
      else Err (InvalidRequestError "invalid request")
  | _ => chat_backend history req
  end.

(** A backend that is rate limited whatever it is asked. *)
Definition rate_limited_backend (history : list (Event Z)) (req : Request Z)
    : result Response :=
  Err RateLimitError.

Definition tokenizer_of (hf : PretrainedConfig.t) : OpenAITokenizer.t :=
  match OpenAITokenizer.init encoding_for_model model_config hf with
  | Ok tokenizer => tokenizer
  | Err _ =>
      {| OpenAITokenizer.model_config := model_config;
         OpenAITokenizer.hf_model_config := hf;
         OpenAITokenizer.encoding := encoding;
         OpenAITokenizer.bos_token_id := -1;
         OpenAITokenizer.cls_token_id := -1;
         OpenAITokenizer.eos_token_id := -1;
         OpenAITokenizer.sep_token_id := -1;
         OpenAITokenizer.pad_token_id := -1;
         OpenAITokenizer.bos_token := "";
         OpenAITokenizer.cls_token := "";
         OpenAITokenizer.eos_token := "";
         OpenAITokenizer.sep_token := "";
         OpenAITokenizer.pad_token := "<pad>" |}
  end.

Definition model_of (hf : PretrainedConfig.t) : OpenAIModel.t :=
  {| OpenAIModel.model_config := model_config;
     OpenAIModel.config := hf;
     OpenAIModel.tokenizer := tokenizer_of hf |}.

Definition world0 : World Z := {| heap := ∅; trace := [] |}.

(** A model whose configuration has the pad token id 50. *)
Definition model50 : OpenAIModel.t :=
  model_of (hf_config (Some 1%Z) (Some 2%Z) (Some 50%Z)).

(** A model whose configuration has the pad token id 0, and one whose
    configuration has no pad token id. *)
Definition model_pad0 : OpenAIModel.t :=
  model_of (hf_config (Some 1%Z) (Some 2%Z) (Some 0%Z)).

Definition model_nopad : OpenAIModel.t :=
  model_of (hf_config (Some 1%Z) (Some 2%Z) None).

(** The sampling parameters [model50] sends when the configuration is
    the default one with [num_return_sequences] set to [n]. *)
Definition params50 (num_return_sequences : Z) : Sampling Z :=
  {| max_tokens := 20%Z; temperature := 1%Z; top_p := 1%Z;
     n := num_return_sequences;
     frequency_penalty := 0%Z;
     stop := [String "010" (String "010" EmptyString);
              OpenAITokenizer.eos_token (OpenAIModel.tokenizer model50);
              "<pad>"] |}.

Definition generate := OpenAIModel.generate sub_one GenerationConfig_defaults.

End Mock.

(** ** Definitions used to state the properties *)

(** The spec's reading of [decode]: the sub-list left after removing the
    entries equal to the pad token id, in order. *)
Fixpoint without_pad (pad : Z) (token_ids : list Z) : list Z :=
  match token_ids with
  | [] => []
  | token_id :: rest =>
      if bool_decide (token_id = pad) then without_pad pad rest
      else token_id :: without_pad pad rest
  end.

(** The number of occurrences of an id in a sequence. *)
Definition occurrences (token_id : Z) (token_ids : list Z) : nat :=
  length (filter (λ x, x = token_id) token_ids).

(** A call that has not come back with a value: it raised, or it is still
    running when the fuel is spent. *)
Definition not_returned {A} (o : Outcome A) : Prop :=
  match o with Returned _ => False | _ => True end.

(** A computation that leaves every object of the heap as it was. *)
Definition heap_preserving {pyval A} (m : M pyval A) : Prop :=
  ∀ w, heap (m w).2 = heap w.

(** The events a computation adds are appended to the trace. *)
Definition trace_extending {pyval A} (m : M pyval A) : Prop :=
  ∀ w, trace w `prefix_of` trace (m w).2.

Definition is_batched_completion {pyval} (ev : Event pyval) : bool :=
  match ev with ERequest (Completion _ _ _) => true | _ => false end.

Definition is_probe {pyval} (ev : Event pyval) : bool :=
  match ev with ERequest (CompletionProbe _ _ _) => true | _ => false end.

(** The probe request of lines 200-204. *)
Definition probe {pyval} (self : OpenAIModel.t) : Request pyval :=
  CompletionProbe (ModelConfig.model_id (OpenAIModel.model_config self))
    "Test" 10.

Definition log {pyval} (ev : Event pyval) (w : World pyval) : World pyval :=
  {| heap := heap w; trace := trace w ++ [ev] |}.

(** What follows the classification in [generate]: the loop and the
    reassembly of the output. *)
Definition dispatch {pyval} (sub_one : pyval → result pyval)
    (openai : list (Event pyval) → Request pyval → result Response)
    (fuel : nat) (self : OpenAIModel.t) (inputs : Tensor.t) (gc : loc)
    (chat : bool) : M pyval Tensor.t :=
  completion_ids_list ←
    OpenAIModel.while_true sub_one openai fuel self gc
      (OpenAIModel.remove_padding self inputs) chat;
  lift (OpenAIModel.reassemble self (bool_decide (Tensor.dim inputs = 2))
          completion_ids_list).

(** One pass of the loop body that the loop follows by another one
    (lines 212-276): the body comes to its end without [break], or it
    raises one of the two errors that have an [except] clause, which logs
    a message and sleeps ten seconds.  The result is the world the next
    pass starts in; any other pass ends the loop. *)
Definition next_pass {pyval} (sub_one : pyval → result pyval)
    (openai : list (Event pyval) → Request pyval → result Response)
    (self : OpenAIModel.t) (gc : loc) (inputs_list : InputsList)
    (chat : bool) (w : World pyval) : option (World pyval) :=
  match OpenAIModel.try_body sub_one openai self gc inputs_list chat w with
  | (Returned (OpenAIModel.EndOfBody _), w') => Some w'
  | (Raised RateLimitError, w') =>
      Some (log (ESleep 10)
              (log (EDebug "Rate limit exceeded, trying again in a few seconds...") w'))
  | (Raised APIError, w') =>
      Some (log (ESleep 10)
              (log (EDebug "Encountered an error with the OpenAI API, trying again in a few seconds...") w'))
  | _ => None
  end.

(** The world after [k] passes that are each followed by another one. *)
Fixpoint passes {pyval} (sub_one : pyval → result pyval)
    (openai : list (Event pyval) → Request pyval → result Response)
    (self : OpenAIModel.t) (gc : loc) (inputs_list : InputsList)
    (chat : bool) (k : nat) (w : World pyval) : option (World pyval) :=
  match k with
  | O => Some w
  | S k =>
      match next_pass sub_one openai self gc inputs_list chat w with
      | Some w' => passes sub_one openai self gc inputs_list chat k w'
      | None => None
      end
  end.

(** Whether an answer to the probe is the signal that the model is a
    chat model (lines 206-208). *)
Definition chat_signal (answer : result Response) : bool :=
  match answer with
  | Err (InvalidRequestError str_e) => contains "This is a chat model" str_e
  | _ => false
  end.

(** The request the chat branch sends for one input (lines 238-258). *)
Definition chat_request {pyval} (self : OpenAIModel.t) (content : string)
    (params : Sampling pyval) : Request pyval :=
  ChatCompletion (ModelConfig.model_id (OpenAIModel.model_config self))
    [("user", content)] params.

(** The re-tokenization of a returned text: the encoding of the stripped
    text (lines 231 and 259-261). *)
Definition retokenization (self : OpenAIModel.t) (text : string)
    : result (list Z) :=
  Encoding.encode (OpenAITokenizer.encoding (OpenAIModel.tokenizer self))
    (strip text)
    (OpenAITokenizer.allowed_special (OpenAIModel.tokenizer self)).


(** The strings [__call__] encodes (line 68). *)
Definition text_list (text : OpenAITokenizer.text_arg) : list string :=
  match text with
  | OpenAITokenizer.Str s => [s]
  | OpenAITokenizer.StrList l => l
  end.

(** The encoding of one string as [__call__] asks for it (lines 71-80). *)
Definition encode_text (self : OpenAITokenizer.t) (text : string)
    : result (list Z) :=
  Encoding.encode (OpenAITokenizer.encoding self) text
    (OpenAITokenizer.allowed_special self).

(** [emits h P Q m]: run in a world whose heap is [h], the computation [m]
    leaves the heap as it is, appends to the trace only events that
    satisfy [P], and returns only values that satisfy [Q]. *)
Definition emits {pyval A} (h : gmap loc (gmap string pyval))
    (P : Event pyval → Prop) (Q : A → Prop) (m : M pyval A) : Prop :=
  ∀ w, heap w = h →
    heap (m w).2 = h ∧
    (∃ evs, trace (m w).2 = trace w ++ evs ∧ Forall P evs) ∧
    match (m w).1 with Returned a => Q a | _ => True end.

(** What [sampling] gives for the configuration object [gc] of the heap
    [h]. *)
Definition sampling_of {pyval} (sub_one : pyval → result pyval)
    (self : OpenAIModel.t) (gc : loc) (h : gmap loc (gmap string pyval))
    : Outcome (Sampling pyval) :=
  (OpenAIModel.sampling sub_one self gc {| heap := h; trace := [] |}).1.

(** The two messages of lines 266 and 271-274. *)
Definition debug_messages : list string :=
  ["Rate limit exceeded, trying again in a few seconds...";
   "Encountered an error with the OpenAI API, trying again in a few seconds..."].

(** The events the loop of [generate] may add: sleeps of ten seconds, the
    two debug messages, and requests with the sampling parameters of the
    configuration; in chat mode a chat request with the decoded text of
    one of the inputs, otherwise the one batched request with all
    inputs. *)
Definition dispatch_event {pyval} (sub_one : pyval → result pyval)
    (self : OpenAIModel.t) (gc : loc) (h : gmap loc (gmap string pyval))
    (inputs_list : InputsList) (chat : bool) (ev : Event pyval) : Prop :=
  match ev with
  | ESleep seconds => seconds = 10%Z
  | EDebug msg => msg ∈ debug_messages
  | ERequest req =>
      ∃ params,
        sampling_of sub_one self gc h = Returned params ∧
        if chat then
          ∃ ids content,
            ItemList ids ∈ items inputs_list ∧
            OpenAITokenizer.decode (OpenAIModel.tokenizer self) ids
              = Ok content ∧
            req = chat_request self content params
        else
          req = Completion
                  (ModelConfig.model_id (OpenAIModel.model_config self))
                  inputs_list params
  end.

Definition is_chat_completion {pyval} (ev : Event pyval) : bool :=
  match ev with ERequest (ChatCompletion _ _ _) => true | _ => false end.

(** The sampling parameters a request carries; the probe has none. *)
Definition request_params {pyval} (ev : Event pyval)
    : option (Sampling pyval) :=
  match ev with
  | ERequest (Completion _ _ params) => Some params
  | ERequest (ChatCompletion _ _ params) => Some params
  | _ => None
  end.

(** The sampling parameters are those of the configuration object [cfg]
    (lines 219-228 and 246-257). *)
Definition reads_configuration {pyval} (sub_one : pyval → result pyval)
    (self : OpenAIModel.t) (cfg : gmap string pyval)
    (params : Sampling pyval) : Prop :=
  cfg !! "max_length" = Some (max_tokens params) ∧
  cfg !! "temperature" = Some (temperature params) ∧
  cfg !! "top_p" = Some (top_p params) ∧
  cfg !! "num_return_sequences" = Some (n params) ∧
  (∃ repetition_penalty,
     cfg !! "repetition_penalty" = Some repetition_penalty ∧
     sub_one repetition_penalty = Ok (frequency_penalty params)) ∧
  stop params =
    [String "010" (String "010" EmptyString);
     OpenAITokenizer.eos_token (OpenAIModel.tokenizer self);
     OpenAITokenizer.pad_token (OpenAIModel.tokenizer self)].

(** A chat-style backend that answers every chat request with an empty
    list of choices. *)
Definition no_choice_backend (history : list (Event Z)) (req : Request Z)
    : result Response :=
  match req with
  | ChatCompletion _ _ _ => Ok {| choices := [] |}
  | _ => Err (InvalidRequestError Mock.chat_indicator)
  end.

(** The request of the completion branch (lines 216-229). *)
Definition completion_request {pyval} (self : OpenAIModel.t)
    (inputs_list : InputsList) (params : Sampling pyval) : Request pyval :=
  Completion (ModelConfig.model_id (OpenAIModel.model_config self))
    inputs_list params.

(** * Properties *)

(** ** The [result] monad and [pad_sequence] *)

Section result_facts.
Context {A B : Type} (f : A → result B).

Lemma mapM_Ok_Forall2 l k :
  mapM f l = Ok k ↔ Forall2 (λ x y, f x = Ok y) l k.
Proof.
  split.
  - revert k. induction l as [|x l IH]; intros k; simpl.
    + intros [= <-]. constructor.
    + destruct (f x) as [y|e] eqn:Hx; simpl; [|discriminate].
      destruct (mapM f l) as [k'|e] eqn:Hl; simpl; [|discriminate].
      intros [= <-]. constructor; auto.
  - induction 1 as [|x y l k Hx _ IH]; simpl; [done|].
    rewrite Hx. simpl. rewrite IH. done.
Qed.

Lemma mapM_Ok_total l :
  (∀ x, x ∈ l → ∃ y, f x = Ok y) → ∃ k, mapM f l = Ok k.
Proof.
  induction l as [|x l IH]; intros Hl; simpl; [by eexists|].
  destruct (Hl x) as [y Hy]; [left|].
  destruct IH as [k Hk]; [intros; apply Hl; by right|].
  exists (y :: k). rewrite Hy. simpl. rewrite Hk. done.
Qed.
End result_facts.

Section pad_sequence_facts.
Implicit Types (sequences : list (list Z)) (v : Z).

Lemma pad_sequence_Ok sequences v :
  sequences ≠ [] →
  pad_sequence sequences v =
    Ok (pad_to (max_list (length <$> sequences)) v <$> sequences).
Proof. by destruct sequences. Qed.


Lemma length_pad_to max_len v s :
  length s ≤ max_len → length (pad_to max_len v s) = max_len.
Proof. intros. unfold pad_to. rewrite length_app, length_replicate. lia. Qed.


Lemma length_le_max_list sequences s :
  s ∈ sequences → length s ≤ max_list (length <$> sequences).
Proof.
  intros. apply max_list_elem_of_le, list_elem_of_fmap. eauto.
Qed.

Lemma pad_sequence_singleton s v : pad_sequence [s] v = Ok [s].
Proof.
  unfold pad_sequence, pad_to. simpl.
  rewrite Nat.max_0_r, Nat.sub_diag. simpl. by rewrite app_nil_r.
Qed.

End pad_sequence_facts.

(** ** The tokenizer *)

Section tokenizer_facts.
Import OpenAITokenizer.
Implicit Types (self : OpenAITokenizer.t) (token_ids : list Z).

Lemma py_or_Some_nonzero v d : v ≠ 0%Z → py_or (Some v) d = v.
Proof. intros. unfold py_or. by rewrite bool_decide_eq_false_2. Qed.

Lemma init_Ok_inv encoding_for_model mc hf self :
  init encoding_for_model mc hf = Ok self →
  bos_token_id self = py_or (PretrainedConfig.bos_token_id hf) (-1) ∧
  eos_token_id self = py_or (PretrainedConfig.eos_token_id hf) (-1) ∧
  pad_token_id self = py_or (PretrainedConfig.pad_token_id hf) (-1) ∧
  cls_token_id self = bos_token_id self ∧
  sep_token_id self = eos_token_id self ∧
  pad_token self = "<pad>".
Proof.
  unfold init. destruct (encoding_for_model _) as [enc|]; simpl; [|done].
  destruct (Encoding.decode enc
              [py_or (PretrainedConfig.bos_token_id hf) (-1)]); simpl; [|done].
  destruct (Encoding.decode enc
              [py_or (PretrainedConfig.eos_token_id hf) (-1)]); simpl; [|done].
  by intros [= <-].
Qed.

Lemma without_pad_filter pad token_ids :
  without_pad pad token_ids = filter (λ token_id, token_id ≠ pad) token_ids.
Proof.
  induction token_ids as [|x l IH]; [done|]. simpl.
  rewrite filter_cons, IH.
  destruct (decide (x ≠ pad)) as [Hne|Heq].
  - by rewrite bool_decide_eq_false_2.
  - rewrite bool_decide_eq_true_2; [done|]. by apply dec_stable.
Qed.

Lemma occurrences_filter_ne pad t token_ids :
  t ≠ pad →
  occurrences t (filter (λ token_id, token_id ≠ pad) token_ids) =
  occurrences t token_ids.
Proof.
  intros. unfold occurrences. f_equal.
  rewrite list_filter_filter. apply list_filter_iff.
  intros x. split; [by intros [? _]|]. intros ->. by split.
Qed.

Lemma call_Str self text ids :
  Encoding.encode (encoding self) text (allowed_special self) = Ok ids →
  call self (Str text) = Ok [ids].
Proof.
  intros Hids. unfold call.
  assert (mapM (λ text, Encoding.encode (encoding self) text
                          (allowed_special self)) [text] = Ok [ids]) as ->
    by (simpl; by rewrite Hids).
  apply pad_sequence_singleton.
Qed.

Lemma call_Str_inv self text rows :
  call self (Str text) = Ok rows →
  ∃ ids, Encoding.encode (encoding self) text (allowed_special self) = Ok ids
         ∧ rows = [ids].
Proof.
  unfold call.
  destruct (Encoding.encode (encoding self) text (allowed_special self))
    as [ids|e] eqn:Hids.
  - assert (mapM (λ text, Encoding.encode (encoding self) text
                            (allowed_special self)) [text] = Ok [ids]) as ->
      by (simpl; by rewrite Hids).
    change (pad_sequence [ids] (pad_token_id self) = Ok rows → ∃ ids0,
              Ok ids = Ok ids0 ∧ rows = [ids0]).
    rewrite pad_sequence_singleton. intros [= <-]. eauto.
  - assert (mapM (λ text, Encoding.encode (encoding self) text
                            (allowed_special self)) [text] = Err e) as ->
      by (simpl; by rewrite Hids).
    done.
Qed.
End tokenizer_facts.

(** C4.  A tokenizer that could be built has, for each role, the token id
    of the reference configuration when that id is present and not zero,
    and the sentinel -1 when it is absent; a provided id of 0 is not kept
    but replaced by -1 as well, because [0 or -1] is [-1]. *)
Theorem init_token_ids encoding_for_model mc hf self :
  OpenAITokenizer.init encoding_for_model mc hf = Ok self →
  let id_of (provided : option Z) : Z :=
    match provided with
    | None => (-1)%Z
    | Some v => if bool_decide (v = 0%Z) then (-1)%Z else v
    end in
  OpenAITokenizer.bos_token_id self = id_of (PretrainedConfig.bos_token_id hf) ∧
  OpenAITokenizer.cls_token_id self = id_of (PretrainedConfig.bos_token_id hf) ∧
  OpenAITokenizer.eos_token_id self = id_of (PretrainedConfig.eos_token_id hf) ∧
  OpenAITokenizer.sep_token_id self = id_of (PretrainedConfig.eos_token_id hf) ∧
  OpenAITokenizer.pad_token_id self = id_of (PretrainedConfig.pad_token_id hf) ∧
  (PretrainedConfig.pad_token_id hf = Some 0%Z →
   OpenAITokenizer.pad_token_id self = (-1)%Z).
Proof.
  intros (Hbos & Heos & Hpad & Hcls & Hsep & _)%init_Ok_inv id_of.
  rewrite Hcls, Hsep, Hbos, Heos, Hpad.
  repeat split; try done.
  by intros ->.
Qed.

(** The configuration provides a pad token id of 0; the tokenizer built
    from it pads with -1. *)
Lemma init_token_ids_witness :
  ∃ self,
    OpenAITokenizer.init Mock.encoding_for_model Mock.model_config
      (Mock.hf_config (Some 1%Z) (Some 2%Z) (Some 0%Z)) = Ok self ∧
    OpenAITokenizer.pad_token_id self = (-1)%Z ∧
    OpenAITokenizer.bos_token_id self = 1%Z.
Proof.
  eexists. split; [reflexivity|].
  pose proof (init_token_ids Mock.encoding_for_model Mock.model_config
                (Mock.hf_config (Some 1%Z) (Some 2%Z) (Some 0%Z)) _ eq_refl)
    as (Hbos & _ & _ & _ & _ & Hpad).
  split; [by apply Hpad | exact Hbos].
Defined.



(** C8.  [decode] hands to the encoding exactly the sub-list of the token
    ids left after removing the entries equal to the pad token id: that
    list is a sub-sequence of the input (order is kept), it holds no pad
    id, and every id other than the pad id, special or not, occurs in it
    as often as in the input. *)
Theorem decode_removes_exactly_pad (self : OpenAITokenizer.t)
    (token_ids : list Z) :
  let pad := OpenAITokenizer.pad_token_id self in
  let kept := without_pad pad token_ids in
  OpenAITokenizer.decode self token_ids =
    Encoding.decode (OpenAITokenizer.encoding self) kept ∧
  (kept `sublist_of` token_ids) ∧
  (pad ∉ kept) ∧
  ∀ token_id, token_id ≠ pad →
    occurrences token_id kept = occurrences token_id token_ids.
Proof.
  intros pad kept. unfold kept. rewrite without_pad_filter.
  split; [done|]. split; [apply sublist_filter|]. split.
  - rewrite list_elem_of_filter. intros [Hne _]. by apply Hne.
  - intros token_id Hne. by apply occurrences_filter_ne.
Qed.

(** ** The monad of [generate] *)

Section monad_facts.
Context {pyval : Type}.
Local Abbreviation M := (M pyval).
Implicit Types (w : World pyval).

Lemma bind_Returned {A B} (m : M A) (f : A → M B) w a w' :
  m w = (Returned a, w') → (m ≫= f) w = f a w'.
Proof. intros H. unfold mbind, M_bind. by rewrite H. Qed.

Lemma bind_Raised {A B} (m : M A) (f : A → M B) w e w' :
  m w = (Raised e, w') → (m ≫= f) w = (Raised e, w').
Proof. intros H. unfold mbind, M_bind. by rewrite H. Qed.

Lemma bind_OutOfFuel {A B} (m : M A) (f : A → M B) w w' :
  m w = (OutOfFuel, w') → (m ≫= f) w = (OutOfFuel, w').
Proof. intros H. unfold mbind, M_bind. by rewrite H. Qed.

Lemma bind_not_returned {A B} (m : M A) (f : A → M B) w :
  not_returned (m w).1 → not_returned ((m ≫= f) w).1.
Proof. unfold mbind, M_bind. by destruct (m w) as [[a|e|] w']. Qed.

Lemma bind_inv_Returned {A B} (m : M A) (f : A → M B) w b w' :
  (m ≫= f) w = (Returned b, w') →
  ∃ a w1, m w = (Returned a, w1) ∧ f a w1 = (Returned b, w').
Proof.
  unfold mbind, M_bind. destruct (m w) as [[a|e|] w1]; [eauto|done..].
Qed.

Lemma lift_Ok {A} (a : A) w : lift (Ok a) w = (Returned a, w).
Proof. done. Qed.

Lemma lift_Err {A} e w : lift (@Err A e) w = (Raised e, w).
Proof. done. Qed.

Lemma lift_world {A} (r : result A) w : (lift r w).2 = w.
Proof. by destruct r. Qed.

(** Heap preservation, piece by piece. *)
Lemma heap_preserving_ret {A} (a : A) : heap_preserving (mret a : M A).
Proof. done. Qed.

Lemma heap_preserving_raise {A} e : heap_preserving (raise e : M A).
Proof. done. Qed.

Lemma heap_preserving_lift {A} (r : result A) : heap_preserving (lift r : M A).
Proof. by destruct r. Qed.

Lemma heap_preserving_emit ev : heap_preserving (emit ev : M unit).
Proof. done. Qed.

Lemma heap_preserving_getattr l name : heap_preserving (getattr l name : M pyval).
Proof. intros w. unfold getattr. by destruct (heap w !! l ≫= _). Qed.

Lemma heap_preserving_index {A} (xs : list A) i : heap_preserving (index xs i : M A).
Proof. unfold index. by destruct (xs !! i). Qed.

Lemma heap_preserving_bind {A B} (m : M A) (f : A → M B) :
  heap_preserving m → (∀ a, heap_preserving (f a)) → heap_preserving (m ≫= f).
Proof.
  intros Hm Hf w. specialize (Hm w). unfold mbind, M_bind.
  destruct (m w) as [[a|e|] w1]; simpl in *; [|done..].
  by rewrite Hf.
Qed.

Lemma heap_preserving_mapM {A B} (f : A → M B) (l : list A) :
  (∀ a, heap_preserving (f a)) → heap_preserving (mapM f l).
Proof.
  intros Hf. induction l as [|x l IH]; simpl; [done|].
  apply heap_preserving_bind; [done|]. intros y.
  apply heap_preserving_bind; [done|]. intros k. done.
Qed.

(** The trace only grows. *)
Lemma trace_extending_ret {A} (a : A) : trace_extending (mret a : M A).
Proof. intros w. reflexivity. Qed.

Lemma trace_extending_raise {A} e : trace_extending (raise e : M A).
Proof. intros w. reflexivity. Qed.

Lemma trace_extending_lift {A} (r : result A) : trace_extending (lift r : M A).
Proof. intros w. destruct r; reflexivity. Qed.

Lemma trace_extending_emit ev : trace_extending (emit ev : M unit).
Proof. intros w. by apply prefix_app_r. Qed.

Lemma trace_extending_getattr l name : trace_extending (getattr l name : M pyval).
Proof. intros w. unfold getattr. destruct (heap w !! l ≫= _); reflexivity. Qed.

Lemma trace_extending_index {A} (xs : list A) i : trace_extending (index xs i : M A).
Proof. intros w. unfold index. destruct (xs !! i); reflexivity. Qed.

Lemma trace_extending_bind {A B} (m : M A) (f : A → M B) :
  trace_extending m → (∀ a, trace_extending (f a)) → trace_extending (m ≫= f).
Proof.
  intros Hm Hf w. specialize (Hm w). unfold mbind, M_bind.
  destruct (m w) as [[a|e|] w1]; simpl in *; [|done..].
  etrans; [exact Hm|apply Hf].
Qed.

Lemma trace_extending_mapM {A B} (f : A → M B) (l : list A) :
  (∀ a, trace_extending (f a)) → trace_extending (mapM f l).
Proof.
  intros Hf. induction l as [|x l IH]; simpl; [apply trace_extending_ret|].
  apply trace_extending_bind; [done|]. intros y.
  apply trace_extending_bind; [done|]. intros k. apply trace_extending_ret.
Qed.
End monad_facts.

Create HintDb frame discriminated.
#[global] Hint Resolve heap_preserving_ret heap_preserving_raise
  heap_preserving_lift heap_preserving_emit heap_preserving_getattr
  heap_preserving_index heap_preserving_bind heap_preserving_mapM
  trace_extending_ret trace_extending_raise
  trace_extending_lift trace_extending_emit trace_extending_getattr
  trace_extending_index trace_extending_bind trace_extending_mapM : frame.

(** ** [generate]: what every part does to the heap and to the trace *)

Section generate_frame.
Import OpenAIModel.
Context {pyval : Type}.
Variable sub_one : pyval → result pyval.
Variable defaults : gmap string pyval.
Variable openai : list (Event pyval) → Request pyval → result Response.
Implicit Types (w : World pyval) (self : OpenAIModel.t) (gc : loc).

Lemma create_world req w : (create openai req w).2 = log (ERequest req) w.
Proof. unfold create. by destruct (openai _ _). Qed.

Lemma create_outcome req w :
  (create openai req w).1 =
  match openai (trace w) req with Ok resp => Returned resp | Err e => Raised e end.
Proof. unfold create. by destruct (openai _ _). Qed.

Lemma heap_preserving_create req : heap_preserving (create openai req).
Proof. intros w. by rewrite create_world. Qed.

Lemma trace_extending_create req : trace_extending (create openai req).
Proof. intros w. rewrite create_world. by apply prefix_app_r. Qed.

Hint Resolve heap_preserving_create trace_extending_create : frame.

Lemma heap_preserving_sampling self gc : heap_preserving (sampling sub_one self gc).
Proof. unfold sampling. repeat (apply heap_preserving_bind; [auto with frame|intros ?]). auto with frame. Qed.

Lemma trace_extending_sampling self gc : trace_extending (sampling sub_one self gc).
Proof. unfold sampling. repeat (apply trace_extending_bind; [auto with frame|intros ?]). auto with frame. Qed.

(** [sampling] reads the heap and nothing else, and changes nothing. *)
Lemma sampling_frame self gc w1 w2 :
  heap w1 = heap w2 →
  sampling sub_one self gc w1 = ((sampling sub_one self gc w2).1, w1).
Proof.
  destruct w1 as [h1 t1], w2 as [h2 t2]. simpl. intros ->.
  unfold sampling, mbind, M_bind, getattr. simpl.
  repeat (destruct (h2 !! gc ≫= _); simpl; [|done]).
  match goal with |- context [sub_one ?p] => by destruct (sub_one p) end.
Qed.

Lemma sampling_world self gc w : (sampling sub_one self gc w).2 = w.
Proof. by rewrite (sampling_frame self gc w w). Qed.

Lemma heap_preserving_retokenize self text : heap_preserving (retokenize (pyval:=pyval) self text).
Proof. unfold retokenize. auto with frame. Qed.

Lemma trace_extending_retokenize self text : trace_extending (retokenize (pyval:=pyval) self text).
Proof. unfold retokenize. auto with frame. Qed.

Lemma retokenize_world self text w : (retokenize self text w).2 = w.
Proof.
  unfold retokenize, mbind, M_bind.
  destruct (OpenAITokenizer.call _ _) as [rows|]; simpl; [|done].
  unfold index. by destruct (rows !! 0).
Qed.

Hint Resolve heap_preserving_sampling trace_extending_sampling
  heap_preserving_retokenize trace_extending_retokenize : frame.

Lemma heap_preserving_choice_text c : heap_preserving (choice_text (pyval:=pyval) c).
Proof. destruct c; simpl; auto with frame. Qed.

Lemma trace_extending_choice_text c : trace_extending (choice_text (pyval:=pyval) c).
Proof. destruct c; simpl; auto with frame. Qed.

Lemma heap_preserving_choice_message_content c :
  heap_preserving (choice_message_content (pyval:=pyval) c).
Proof. destruct c; simpl; auto with frame. Qed.

Lemma trace_extending_choice_message_content c :
  trace_extending (choice_message_content (pyval:=pyval) c).
Proof. destruct c; simpl; auto with frame. Qed.

Lemma heap_preserving_decode_item self x : heap_preserving (decode_item (pyval:=pyval) self x).
Proof. destruct x; simpl; auto with frame. Qed.

Lemma trace_extending_decode_item self x : trace_extending (decode_item (pyval:=pyval) self x).
Proof. destruct x; simpl; auto with frame. Qed.

Hint Resolve heap_preserving_choice_text trace_extending_choice_text
  heap_preserving_choice_message_content trace_extending_choice_message_content
  heap_preserving_decode_item trace_extending_decode_item : frame.

Lemma heap_preserving_completion_branch self gc il :
  heap_preserving (completion_branch sub_one openai self gc il).
Proof.
  unfold completion_branch.
  repeat (apply heap_preserving_bind; [auto with frame|intros ?]).
  apply heap_preserving_mapM. intros c. auto with frame.
Qed.

Lemma trace_extending_completion_branch self gc il :
  trace_extending (completion_branch sub_one openai self gc il).
Proof.
  unfold completion_branch.
  repeat (apply trace_extending_bind; [auto with frame|intros ?]).
  apply trace_extending_mapM. intros c. auto with frame.
Qed.

Lemma heap_preserving_chat_for self gc inputs acc :
  heap_preserving (chat_for sub_one openai self gc inputs acc).
Proof.
  revert acc. induction inputs as [|x inputs IH]; intros acc; simpl.
  - auto with frame.
  - repeat (apply heap_preserving_bind; [auto with frame|intros ?]). apply IH.
Qed.

Lemma trace_extending_chat_for self gc inputs acc :
  trace_extending (chat_for sub_one openai self gc inputs acc).
Proof.
  revert acc. induction inputs as [|x inputs IH]; intros acc; simpl.
  - auto with frame.
  - repeat (apply trace_extending_bind; [auto with frame|intros ?]). apply IH.
Qed.

Hint Resolve heap_preserving_completion_branch trace_extending_completion_branch
  heap_preserving_chat_for trace_extending_chat_for : frame.

Lemma heap_preserving_try_body self gc il chat :
  heap_preserving (try_body sub_one openai self gc il chat).
Proof. unfold try_body. destruct chat; simpl; auto with frame. Qed.

Lemma trace_extending_try_body self gc il chat :
  trace_extending (try_body sub_one openai self gc il chat).
Proof. unfold try_body. destruct chat; simpl; auto with frame. Qed.

Lemma heap_preserving_while_true fuel self gc il chat :
  heap_preserving (while_true sub_one openai fuel self gc il chat).
Proof.
  induction fuel as [|fuel IH]; intros w; simpl; [done|].
  pose proof (heap_preserving_try_body self gc il chat w) as Hb.
  destruct (try_body _ _ _ _ _ _ w) as [[[ids|ids]|e|] w1]; simpl in *;
    [done| by rewrite IH | | done].
  destruct e; try done; unfold mbind, M_bind; simpl; by rewrite IH.
Qed.

Lemma trace_extending_while_true fuel self gc il chat :
  trace_extending (while_true sub_one openai fuel self gc il chat).
Proof.
  induction fuel as [|fuel IH]; intros w; simpl; [reflexivity|].
  pose proof (trace_extending_try_body self gc il chat w) as Hb.
  destruct (try_body _ _ _ _ _ _ w) as [[[ids|ids]|e|] w1]; simpl in *;
    [done| by etrans; [|apply IH] | | done].
  destruct e; try done; unfold mbind, M_bind; simpl;
    (etrans; [exact Hb|]); (etrans; [|apply IH]); simpl;
    rewrite <-app_assoc; by apply prefix_app_r.
Qed.

Lemma is_chat_model_world self w :
  (is_chat_model openai self w).2 = log (ERequest (probe self)) w.
Proof.
  unfold is_chat_model, create, probe.
  destruct (openai _ _) as [resp|e]; [done|].
  destruct e; try done. by destruct (contains _ _).
Qed.

Lemma heap_preserving_is_chat_model self : heap_preserving (is_chat_model openai self).
Proof. intros w. by rewrite is_chat_model_world. Qed.

Lemma trace_extending_is_chat_model self : trace_extending (is_chat_model openai self).
Proof. intros w. rewrite is_chat_model_world. by apply prefix_app_r. Qed.
End generate_frame.

#[global] Hint Resolve heap_preserving_create trace_extending_create
  heap_preserving_sampling trace_extending_sampling
  heap_preserving_retokenize trace_extending_retokenize
  heap_preserving_completion_branch trace_extending_completion_branch
  heap_preserving_chat_for trace_extending_chat_for
  heap_preserving_try_body trace_extending_try_body
  heap_preserving_while_true trace_extending_while_true
  heap_preserving_is_chat_model trace_extending_is_chat_model : frame.

(** ** The retry loop *)

Section while_true_facts.
Import OpenAIModel.
Context {pyval : Type}.
Variable sub_one : pyval → result pyval.
Variable openai : list (Event pyval) → Request pyval → result Response.
Implicit Types (w : World pyval) (self : OpenAIModel.t) (gc : loc).

(** The completion branch never reaches a [break]. *)
Lemma try_body_completion self gc il w :
  match (try_body sub_one openai self gc il false w).1 with
  | Returned (Break _) => False
  | _ => True
  end.
Proof.
  unfold try_body. simpl. unfold mbind, M_bind.
  by destruct (completion_branch _ _ _ _ _ w) as [[ids|e|] w1].
Qed.

Lemma while_true_completion_not_returned fuel self gc il w :
  not_returned (while_true sub_one openai fuel self gc il false w).1.
Proof.
  revert w. induction fuel as [|fuel IH]; intros w; simpl; [done|].
  pose proof (try_body_completion self gc il w) as Hb.
  destruct (try_body _ _ _ _ _ _ w) as [[[ids|ids]|e|] w1]; simpl in *;
    [done|apply IH| |done].
  destruct e; try done; unfold mbind, M_bind; simpl; apply IH.
Qed.

(** One iteration that ends in a rate-limit or API error: a debug
    message, ten seconds of sleep, and the body again, with the
    classification it already has. *)
Lemma while_true_retry fuel self gc il chat w e w1 :
  try_body sub_one openai self gc il chat w = (Raised e, w1) →
  e = RateLimitError ∨ e = APIError →
  ∃ msg,
    while_true sub_one openai (S fuel) self gc il chat w =
    while_true sub_one openai fuel self gc il chat
      (log (ESleep 10) (log (EDebug msg) w1)).
Proof.
  intros Hb [-> | ->]; simpl; rewrite Hb; eexists; reflexivity.
Qed.

(** Any other exception leaves the loop at once. *)
Lemma while_true_raise fuel self gc il chat w e w1 :
  try_body sub_one openai self gc il chat w = (Raised e, w1) →
  e ≠ RateLimitError → e ≠ APIError →
  while_true sub_one openai (S fuel) self gc il chat w = (Raised e, w1).
Proof. intros Hb ??. simpl. rewrite Hb. by destruct e. Qed.

Lemma while_true_break fuel self gc il chat w ids w1 :
  try_body sub_one openai self gc il chat w = (Returned (Break ids), w1) →
  while_true sub_one openai (S fuel) self gc il chat w = (Returned ids, w1).
Proof. intros Hb. simpl. by rewrite Hb. Qed.

Lemma while_true_end_of_body fuel self gc il chat w ids w1 :
  try_body sub_one openai self gc il chat w = (Returned (EndOfBody ids), w1) →
  while_true sub_one openai (S fuel) self gc il chat w =
  while_true sub_one openai fuel self gc il chat w1.
Proof. intros Hb. simpl. by rewrite Hb. Qed.

(** A [mapM] whose steps all return without touching the world. *)
Lemma mapM_pure {A B} (f : A → M pyval B) (g : A → B) (l : list A) w :
  (∀ x, x ∈ l → f x w = (Returned (g x), w)) →
  mapM f l w = (Returned (g <$> l), w).
Proof.
  induction l as [|x l IH]; intros Hf; simpl; [done|].
  unfold mbind, M_bind at 1. rewrite Hf by left.
  unfold mbind, M_bind at 1. rewrite IH; [done|].
  intros y Hy. apply Hf. by right.
Qed.
End while_true_facts.

(** ** The generation configuration *)

Section config_facts.
Import OpenAIModel.
Context {pyval : Type}.
Implicit Types (w : World pyval) (gc : loc) (obj : gmap string pyval)
  (kwargs : list (string * pyval)).

Lemma set_attrs_cons obj key value kwargs :
  set_attrs obj ((key, value) :: kwargs) =
  set_attrs (<[key := value]> obj) kwargs.
Proof. done. Qed.

Lemma set_attrs_lookup_other obj kwargs key :
  key ∉ kwargs.*1 → set_attrs obj kwargs !! key = obj !! key.
Proof.
  revert obj. induction kwargs as [|[k v] kwargs IH]; intros obj Hk; [done|].
  rewrite set_attrs_cons, IH.
  - apply lookup_insert_ne. intros ->. apply Hk. by left.
  - intros ?. apply Hk. by right.
Qed.

Lemma set_attrs_lookup obj kwargs key value :
  NoDup kwargs.*1 → (key, value) ∈ kwargs →
  set_attrs obj kwargs !! key = Some value.
Proof.
  revert obj. induction kwargs as [|[k v] kwargs IH]; intros obj Hnd Hin.
  - by apply elem_of_nil in Hin.
  - rewrite fmap_cons in Hnd. apply NoDup_cons in Hnd as [Hk Hnd].
    rewrite set_attrs_cons.
    apply elem_of_cons in Hin as [[= -> ->]|Hin]; [|by apply IH].
    rewrite set_attrs_lookup_other by done. apply lookup_insert_eq.
Qed.

Lemma apply_kwargs_spec gc kwargs obj w :
  heap w !! gc = Some obj →
  apply_kwargs gc kwargs w =
  (Returned (),
   {| heap := <[gc := set_attrs obj kwargs]> (heap w); trace := trace w |}).
Proof.
  revert obj w. induction kwargs as [|[k v] kwargs IH]; intros obj w Hobj.
  - simpl. rewrite insert_id by done. by destruct w.
  - simpl. unfold mbind, M_bind, setattr.
    erewrite IH; simpl.
    + by rewrite insert_alter_eq.
    + by rewrite lookup_alter_eq, Hobj.
Qed.

Lemma apply_kwargs_trace gc kwargs w :
  (apply_kwargs gc kwargs w).1 = Returned () ∧
  trace (apply_kwargs gc kwargs w).2 = trace w.
Proof.
  revert w. induction kwargs as [|[k v] kwargs IH]; intros w; [done|].
  simpl. unfold mbind, M_bind, setattr.
  apply (IH {| heap := alter <[k:=v]> gc (heap w); trace := trace w |}).
Qed.

(** [generate] always gets past lines 173-177, to a configuration
    object, and has made no request by then. *)
Lemma resolve_generation_config_Returned defaults
    (generation_config : option loc) kwargs w :
  ∃ l w0,
    resolve_generation_config defaults generation_config kwargs w
      = (Returned l, w0) ∧
    l = default (fresh (dom (heap w))) generation_config ∧
    trace w0 = trace w.
Proof.
  destruct generation_config as [l|]; simpl.
  - destruct (apply_kwargs_trace l kwargs w) as [Ho Ht].
    unfold mbind, M_bind.
    destruct (apply_kwargs l kwargs w) as [o w0]; simpl in *; subst o.
    eauto.
  - unfold alloc. eauto.
Qed.
End config_facts.

(** ** [generate] as a whole *)

Section generate_facts.
Import OpenAIModel.
Context {pyval : Type}.
Variable sub_one : pyval → result pyval.
Variable defaults : gmap string pyval.
Variable openai : list (Event pyval) → Request pyval → result Response.
Implicit Types (w : World pyval) (self : OpenAIModel.t) (gc : loc)
  (ogc : option loc) (kwargs : list (string * pyval)).

Lemma is_chat_model_spec self w :
  is_chat_model openai self w =
  (match openai (trace w) (probe self) with
   | Ok _ => Returned false
   | Err (InvalidRequestError str_e) =>
       if contains "This is a chat model" str_e then Returned true
       else Raised (InvalidRequestError str_e)
   | Err e => Raised e
   end, log (ERequest (probe self)) w).
Proof.
  unfold is_chat_model, create, probe.
  destruct (openai _ _) as [resp|e]; [done|].
  destruct e; try done. by destruct (contains _ _).
Qed.

(** [generate], split at the probe. *)
Lemma generate_by_probe fuel self inputs ogc kwargs w :
  let w0 := (resolve_generation_config defaults ogc kwargs w).2 in
  let gc := default (fresh (dom (heap w))) ogc in
  let w1 := log (ERequest (probe self)) w0 in
  trace w0 = trace w ∧
  generate sub_one defaults openai fuel self inputs ogc kwargs w =
    match openai (trace w) (probe self) with
    | Ok _ => dispatch sub_one openai fuel self inputs gc false w1
    | Err (InvalidRequestError str_e) =>
        if contains "This is a chat model" str_e
        then dispatch sub_one openai fuel self inputs gc true w1
        else (Raised (InvalidRequestError str_e), w1)
    | Err e => (Raised e, w1)
    end.
Proof.
  intros w0 gc w1. subst w0 gc w1.
  destruct (resolve_generation_config_Returned defaults ogc kwargs w)
    as (l & w0 & Hres & -> & Htr).
  rewrite Hres. simpl. split; [done|].
  unfold generate. rewrite (bind_Returned _ _ _ _ _ Hres).
  unfold mbind at 1, M_bind at 1. rewrite is_chat_model_spec, Htr.
  destruct (openai (trace w) (probe self)) as [resp|e]; [done|].
  destruct e; try done. by destruct (contains _ _).
Qed.

Lemma heap_preserving_dispatch fuel self inputs gc chat :
  heap_preserving (dispatch sub_one openai fuel self inputs gc chat).
Proof. unfold dispatch. auto with frame. Qed.

Lemma trace_extending_dispatch fuel self inputs gc chat :
  trace_extending (dispatch sub_one openai fuel self inputs gc chat).
Proof. unfold dispatch. auto with frame. Qed.

(** After lines 173-177 nothing writes to the heap. *)
Lemma generate_heap fuel self inputs ogc kwargs w :
  heap (generate sub_one defaults openai fuel self inputs ogc kwargs w).2 =
  heap (resolve_generation_config defaults ogc kwargs w).2.
Proof.
  destruct (generate_by_probe fuel self inputs ogc kwargs w) as [_ ->].
  destruct (openai _ _) as [resp|e].
  - by rewrite heap_preserving_dispatch.
  - destruct e; try done.
    destruct (contains _ _); [|done]. by rewrite heap_preserving_dispatch.
Qed.

(** Every call starts, after lines 173-177, with the probe. *)
Lemma generate_trace_probe fuel self inputs ogc kwargs w :
  (trace w ++ [ERequest (probe self)]) `prefix_of`
  trace (generate sub_one defaults openai fuel self inputs ogc kwargs w).2.
Proof.
  destruct (generate_by_probe fuel self inputs ogc kwargs w) as [Htr ->].
  set (w1 := log _ _).
  assert (trace w1 = trace w ++ [ERequest (probe self)]) as <-
    by (unfold w1; simpl; by rewrite Htr).
  destruct (openai _ _) as [resp|e].
  - apply trace_extending_dispatch.
  - destruct e; try reflexivity.
    destruct (contains _ _); [|reflexivity]. apply trace_extending_dispatch.
Qed.

(** With a completion-style backend the call does not come back. *)
Lemma dispatch_completion_not_returned fuel self inputs gc w :
  not_returned (dispatch sub_one openai fuel self inputs gc false w).1.
Proof.
  unfold dispatch. apply bind_not_returned.
  apply while_true_completion_not_returned.
Qed.
End generate_facts.

(** C7.  Every call of [generate], in whatever state earlier calls have
    left the world, first sends the probe.  A successful probe makes the
    call go on as completion-style; an invalid-request error whose text
    contains "This is a chat model" makes it go on as chat-style; any
    other error of the probe is raised to the caller as it is, with
    nothing sent after the probe. *)
Theorem classification_on_every_call {pyval} (sub_one : pyval → result pyval)
    (defaults : gmap string pyval)
    (openai : list (Event pyval) → Request pyval → result Response)
    (fuel : nat) (self : OpenAIModel.t) (inputs : Tensor.t)
    (generation_config : option loc) (kwargs : list (string * pyval))
    (w : World pyval) :
  let call :=
    OpenAIModel.generate sub_one defaults openai fuel self inputs
      generation_config kwargs w in
  let w0 :=
    (OpenAIModel.resolve_generation_config defaults generation_config kwargs w).2 in
  let gc := default (fresh (dom (heap w))) generation_config in
  let w1 := log (ERequest (probe self)) w0 in
  trace w1 = trace w ++ [ERequest (probe self)] ∧
  (trace w1 `prefix_of` trace call.2) ∧
  call =
    match openai (trace w) (probe self) with
    | Ok _ => dispatch sub_one openai fuel self inputs gc false w1
    | Err (InvalidRequestError str_e) =>
        if contains "This is a chat model" str_e
        then dispatch sub_one openai fuel self inputs gc true w1
        else (Raised (InvalidRequestError str_e), w1)
    | Err e => (Raised e, w1)
    end.
Proof.
  intros call w0 gc w1.
  destruct (generate_by_probe sub_one defaults openai fuel self inputs
              generation_config kwargs w) as [Htr Hcall].
  assert (trace w1 = trace w ++ [ERequest (probe self)]) as Hw1
    by (unfold w1, w0; simpl; by rewrite Htr).
  split; [done|]. split; [|done].
  rewrite Hw1. apply generate_trace_probe.
Qed.

(** C9.  When [generate] is given a configuration object, that object
    itself is changed: after the call, whatever its outcome, it is the
    old object with the keyword arguments set one by one, so it holds
    every override and keeps its other attributes, and no other object
    has changed.  When no configuration is given, a new object is built
    from the defaults and the overrides, and no existing object is
    changed. *)
Theorem generate_overrides_in_place {pyval} (sub_one : pyval → result pyval)
    (defaults : gmap string pyval)
    (openai : list (Event pyval) → Request pyval → result Response)
    (fuel : nat) (self : OpenAIModel.t) (inputs : Tensor.t)
    (kwargs : list (string * pyval)) (w : World pyval)
    (gc : loc) (obj : gmap string pyval) :
  heap w !! gc = Some obj →
  NoDup kwargs.*1 →
  let after :=
    heap (OpenAIModel.generate sub_one defaults openai fuel self inputs
            (Some gc) kwargs w).2 in
  let after_none :=
    heap (OpenAIModel.generate sub_one defaults openai fuel self inputs
            None kwargs w).2 in
  after = <[gc := set_attrs obj kwargs]> (heap w) ∧
  (∀ key value, (key, value) ∈ kwargs →
     after !! gc ≫= (.!! key) = Some value) ∧
  (∀ key, key ∉ kwargs.*1 → after !! gc ≫= (.!! key) = obj !! key) ∧
  (∀ l, l ≠ gc → after !! l = heap w !! l) ∧
  after_none = <[fresh (dom (heap w)) := set_attrs defaults kwargs]> (heap w) ∧
  (∀ l, is_Some (heap w !! l) → after_none !! l = heap w !! l).
Proof.
  intros Hobj Hnd after after_none.
  assert (after = <[gc := set_attrs obj kwargs]> (heap w)) as Hafter.
  { unfold after. rewrite generate_heap. simpl.
    unfold mbind, M_bind. by rewrite (apply_kwargs_spec gc kwargs obj w Hobj). }
  assert (after_none =
          <[fresh (dom (heap w)) := set_attrs defaults kwargs]> (heap w))
    as Hnone.
  { unfold after_none. by rewrite generate_heap. }
  rewrite Hafter, Hnone. split; [done|]. split; [|split; [|split; [|split]]].
  - intros key value Hin. rewrite lookup_insert_eq. simpl.
    by apply set_attrs_lookup.
  - intros key Hkey. rewrite lookup_insert_eq. simpl.
    by apply set_attrs_lookup_other.
  - intros l Hl. by rewrite lookup_insert_ne.
  - done.
  - intros l Hl. apply lookup_insert_ne. intros <-.
    apply elem_of_dom in Hl. by apply is_fresh in Hl.
Qed.

(** The caller's object [1] holds the defaults; after a call with the
    override [num_return_sequences = 3] it holds 3 there. *)
Lemma generate_overrides_in_place_witness :
  let w := {| heap := {[ 1%positive := Mock.GenerationConfig_defaults ]};
              trace := [] |} in
  heap (Mock.generate Mock.chat_backend 2 Mock.model50
          (Tensor.Tensor2 [[97; 98; 50]; [99; 100; 101]]%Z)
          (Some 1%positive) [("num_return_sequences", 3%Z)] w).2
    !! 1%positive ≫= (.!! "num_return_sequences") = Some 3%Z.
Proof.
  intros w.
  refine (proj1 (proj2 (generate_overrides_in_place Mock.sub_one
            Mock.GenerationConfig_defaults Mock.chat_backend 2 Mock.model50
            (Tensor.Tensor2 [[97; 98; 50]; [99; 100; 101]]%Z)
            [("num_return_sequences", 3%Z)] w 1%positive
            Mock.GenerationConfig_defaults _ _))
          "num_return_sequences" 3%Z _).
  - reflexivity.
  - apply NoDup_singleton.
  - apply list_elem_of_singleton. reflexivity.
Defined.

(** ** Runs against the scripted backends *)

Lemma filter_replicate_True {A} (P : A → Prop) `{!∀ x, Decision (P x)} n x :
  P x → filter P (replicate n x) = replicate n x.
Proof.
  intros. induction n as [|n IH]; [done|]. simpl.
  rewrite filter_cons_True by done. by rewrite IH.
Qed.

Section mock_completion.
Import OpenAIModel.
Implicit Types (w : World Z).

(** One iteration against the completion backend: one batched request,
    and the end of the loop body. *)
Lemma mock_completion_body gc rows params w :
  sampling Mock.sub_one Mock.model50 gc w = (Returned params, w) →
  try_body Mock.sub_one Mock.completion_backend Mock.model50 gc (Nested rows)
    false w =
  (Returned (EndOfBody ((λ _, [111; 107]%Z) <$> rows)),
   log (ERequest (Completion "mock-model" (Nested rows) params)) w).
Proof.
  intros Hs. unfold try_body. change (negb false) with true. cbv iota.
  erewrite bind_Returned; [reflexivity|].
  unfold completion_branch.
  erewrite bind_Returned; [|exact Hs].
  erewrite bind_Returned; [|reflexivity].
  simpl choices.
  rewrite (mapM_pure _ (λ _, [111; 107]%Z)).
  - by rewrite <-list_fmap_compose.
  - intros c (row & -> & _)%list_elem_of_fmap. reflexivity.
Qed.

Lemma mock_completion_loop fuel gc rows params w :
  sampling Mock.sub_one Mock.model50 gc w = (Returned params, w) →
  while_true Mock.sub_one Mock.completion_backend fuel Mock.model50 gc
    (Nested rows) false w =
  (OutOfFuel,
   {| heap := heap w;
      trace := trace w ++
        replicate fuel
          (ERequest (Completion "mock-model" (Nested rows) params)) |}).
Proof.
  revert w. induction fuel as [|fuel IH]; intros w Hs.
  - simpl. rewrite app_nil_r. by destruct w.
  - erewrite while_true_end_of_body; [|by apply mock_completion_body].
    rewrite IH.
    + simpl. by rewrite <-app_assoc.
    + rewrite (sampling_frame _ _ _ _ w) by done. by rewrite Hs.
Qed.
End mock_completion.

(** [generate] comes back with a value only if the probe was answered
    with the chat-model signal. *)
Lemma generate_returned_only_chat {pyval} (sub_one : pyval → result pyval)
    defaults openai fuel self inputs generation_config kwargs (w : World pyval) :
  match (OpenAIModel.generate sub_one defaults openai fuel self inputs
           generation_config kwargs w).1 with
  | Returned _ => chat_signal (openai (trace w) (probe self)) = true
  | _ => True
  end.
Proof.
  destruct (generate_by_probe sub_one defaults openai fuel self inputs
              generation_config kwargs w) as [_ ->].
  destruct (openai (trace w) (probe self)) as [resp|e]; simpl.
  - set (w1 := log _ _).
    pose proof (dispatch_completion_not_returned sub_one openai fuel self
                  inputs (default (fresh (dom (heap w))) generation_config) w1)
      as Hnr.
    by destruct (dispatch _ _ _ _ _ _ _ _).1.
  - destruct e; try done.
    destruct (contains _ _); [|done]. by destruct (dispatch _ _ _ _ _ _ _ _).1.
Qed.

(** With a chat-style backend, a flat [inputs_list] that is not empty
    makes the first iteration raise [TypeError]. *)
Lemma while_true_chat_flat {pyval} (sub_one : pyval → result pyval) openai
    fuel self gc x l (w : World pyval) :
  OpenAIModel.while_true sub_one openai (S fuel) self gc (Flat (x :: l)) true w
  = (Raised TypeError, w).
Proof. by apply while_true_raise. Qed.

(** C1.  The claim fails on the code.  [generate] comes back with a tensor
    only if the probe was answered with the chat-model signal: with a
    completion-style backend the loop body has no [break], so the call
    either raises or goes round the loop for ever.  Against a backend
    that answers every request, with a batch of two sequences, the call
    has spent any amount of fuel without returning, and has sent one
    batched request per unit of fuel. *)
Theorem completion_generate_never_returns :
  (∀ pyval (sub_one : pyval → result pyval) defaults openai fuel self inputs
     generation_config kwargs (w : World pyval),
     match (OpenAIModel.generate sub_one defaults openai fuel self inputs
              generation_config kwargs w).1 with
     | Returned _ => chat_signal (openai (trace w) (probe self)) = true
     | _ => True
     end) ∧
  (∀ fuel,
     let r := Mock.generate Mock.completion_backend fuel Mock.model50
                (Tensor.Tensor2 [[97; 98; 50]; [99; 100; 101]]%Z) None []
                Mock.world0 in
     r.1 = OutOfFuel ∧
     length (filter (λ ev, is_batched_completion ev) (trace r.2)) = fuel).
Proof.
  split.
  - intros. apply generate_returned_only_chat.
  - intros fuel r. subst r. unfold Mock.generate, OpenAIModel.generate.
    erewrite bind_Returned; [|vm_compute; reflexivity].
    erewrite bind_Returned; [|vm_compute; reflexivity].
    erewrite bind_OutOfFuel;
      [|apply mock_completion_loop; vm_compute; reflexivity].
    split; [done|]. cbn [snd trace app].
    rewrite filter_cons_False by (simpl; tauto).
    rewrite filter_replicate_True by done. apply length_replicate.
Qed.

(** C3.  The claim fails on the code.  A 1-D input that holds at least one
    token other than the configuration's pad token never makes [generate]
    return: with a chat-style backend the loop over [inputs_list] hands
    single integers to [decode], which raises [TypeError] before any
    request is sent; otherwise the call raises or does not leave the
    loop. *)
Theorem generate_1d_not_returned {pyval} (sub_one : pyval → result pyval)
    (defaults : gmap string pyval)
    (openai : list (Event pyval) → Request pyval → result Response)
    (fuel : nat) (self : OpenAIModel.t) (ids : list Z)
    (generation_config : option loc) (kwargs : list (string * pyval))
    (w : World pyval) :
  filter (λ token_id,
            py_ne token_id
              (PretrainedConfig.pad_token_id (OpenAIModel.config self)) = true)
         ids ≠ [] →
  let r := OpenAIModel.generate sub_one defaults openai fuel self
             (Tensor.Tensor1 ids) generation_config kwargs w in
  not_returned r.1 ∧
  (if chat_signal (openai (trace w) (probe self))
   then r.1 = match fuel with O => OutOfFuel | S _ => Raised TypeError end
        ∧ trace r.2 = trace w ++ [ERequest (probe self)]
   else True).
Proof.
  intros Hne r.
  assert (chat_signal (openai (trace w) (probe self)) = true →
          r.1 = match fuel with O => OutOfFuel | S _ => Raised TypeError end
          ∧ trace r.2 = trace w ++ [ERequest (probe self)]) as Hchat.
  { intros Hsig. unfold r.
    destruct (generate_by_probe sub_one defaults openai fuel self
                (Tensor.Tensor1 ids) generation_config kwargs w) as [Htr ->].
    destruct (openai (trace w) (probe self)) as [resp|e]; [done|].
    destruct e; try done. simpl in Hsig. rewrite Hsig.
    unfold dispatch. simpl OpenAIModel.remove_padding.
    destruct (filter _ ids) as [|x l] eqn:Hf; [done|].
    destruct fuel as [|fuel]; [simpl; by rewrite Htr|].
    erewrite bind_Raised; [|apply while_true_chat_flat].
    simpl. by rewrite Htr. }
  split.
  - destruct (chat_signal (openai (trace w) (probe self))) eqn:Hsig.
    + destruct Hchat as [Hr _]; [done|]. rewrite Hr. by destruct fuel.
    + pose proof (generate_returned_only_chat sub_one defaults openai fuel self
                    (Tensor.Tensor1 ids) generation_config kwargs w) as Hc.
      fold r in Hc. destruct r.1; [congruence|done..].
  - destruct (chat_signal _); [by apply Hchat|done].
Qed.

(** A 1-D input of three tokens, the last being the pad token, sent to a
    chat-style backend: the call raises [TypeError]. *)
Lemma generate_1d_not_returned_witness :
  (Mock.generate Mock.chat_backend 3 Mock.model50
     (Tensor.Tensor1 [97; 98; 50]%Z) None [] Mock.world0).1 = Raised TypeError.
Proof.
  refine (proj1 (proj2 (generate_1d_not_returned Mock.sub_one
            Mock.GenerationConfig_defaults Mock.chat_backend 3 Mock.model50
            [97; 98; 50]%Z None [] Mock.world0 _))).
  vm_compute. discriminate.
Defined.

(** ** The chat branch *)

Section chat_facts.
Import OpenAIModel.
Context {pyval : Type}.
Variable sub_one : pyval → result pyval.
Variable openai : list (Event pyval) → Request pyval → result Response.
Implicit Types (w : World pyval) (self : OpenAIModel.t) (gc : loc).

Lemma retokenize_Ok self text out w :
  Encoding.encode (OpenAITokenizer.encoding (tokenizer self)) (strip text)
    (OpenAITokenizer.allowed_special (tokenizer self)) = Ok out →
  retokenize self text w = (Returned out, w).
Proof.
  intros Henc. unfold retokenize.
  erewrite bind_Returned; [|by erewrite call_Str].
  done.
Qed.

(** One turn of the [for] loop in which the request is answered. *)
Lemma chat_for_answered self gc ids inputs acc w content params c rest out :
  OpenAITokenizer.decode (tokenizer self) ids = Ok content →
  sampling sub_one self gc w = (Returned params, w) →
  openai (trace w) (chat_request self content params)
    = Ok {| choices := MessageChoice c :: rest |} →
  Encoding.encode (OpenAITokenizer.encoding (tokenizer self)) (strip c)
    (OpenAITokenizer.allowed_special (tokenizer self)) = Ok out →
  chat_for sub_one openai self gc (ItemList ids :: inputs) acc w =
  chat_for sub_one openai self gc inputs (acc ++ [out])
    (log (ERequest (chat_request self content params)) w).
Proof.
  intros Hdec Hs Hans Henc. simpl chat_for.
  erewrite bind_Returned; [|simpl; by rewrite Hdec].
  erewrite bind_Returned; [|exact Hs].
  erewrite bind_Returned;
    [|unfold create; fold (chat_request self content params);
      by rewrite Hans].
  erewrite bind_Returned; [|reflexivity].
  erewrite bind_Returned; [|reflexivity].
  erewrite bind_Returned; [|by apply retokenize_Ok].
  done.
Qed.

(** One turn in which the request is turned down. *)
Lemma chat_for_refused self gc ids inputs acc w content params e :
  OpenAITokenizer.decode (tokenizer self) ids = Ok content →
  sampling sub_one self gc w = (Returned params, w) →
  openai (trace w) (chat_request self content params) = Err e →
  chat_for sub_one openai self gc (ItemList ids :: inputs) acc w =
  (Raised e, log (ERequest (chat_request self content params)) w).
Proof.
  intros Hdec Hs Hans. simpl chat_for.
  erewrite bind_Returned; [|simpl; by rewrite Hdec].
  erewrite bind_Returned; [|exact Hs].
  erewrite bind_Raised;
    [|unfold create; fold (chat_request self content params);
      by rewrite Hans].
  done.
Qed.

Lemma try_body_chat self gc il w :
  try_body sub_one openai self gc il true w =
  (completion_ids_list ← chat_for sub_one openai self gc (items il) [];
   mret (Break completion_ids_list)) w.
Proof. done. Qed.
End chat_facts.

(** ** Chat-style generation *)

Section chat_generate.
Import OpenAIModel.
Context {pyval : Type}.
Variable sub_one : pyval → result pyval.
Variable defaults : gmap string pyval.
Variable openai : list (Event pyval) → Request pyval → result Response.
Variable self : OpenAIModel.t.
Variable params : Sampling pyval.
Implicit Types (w : World pyval) (gc : loc).

(** The input sequences of the call. *)
Variable all_inputs : list (list Z).
(** The tokenizer decodes each of them. *)
Hypothesis decodable :
  ∀ ids, ids ∈ all_inputs →
    ∃ content, OpenAITokenizer.decode (tokenizer self) ids = Ok content.
(** The backend answers every chat request made for one of them with at
    least one choice, the first of which the tokenizer encodes. *)
Hypothesis answered :
  ∀ history ids content,
    ids ∈ all_inputs →
    OpenAITokenizer.decode (tokenizer self) ids = Ok content →
    ∃ c rest out,
      openai history (chat_request self content params)
        = Ok {| choices := MessageChoice c :: rest |} ∧
      retokenization self c = Ok out.


End chat_generate.

Section chat_inversion.
Import OpenAIModel.
Context {pyval : Type}.
Variable sub_one : pyval → result pyval.
Variable defaults : gmap string pyval.
Variable openai : list (Event pyval) → Request pyval → result Response.
Variable self : OpenAIModel.t.
Implicit Types (w : World pyval) (gc : loc).

Lemma lift_inv_Returned {A} (r : result A) w a w' :
  lift r w = (Returned a, w') → r = Ok a ∧ w' = w.
Proof. destruct r; simpl; [by intros [= -> ->]|done]. Qed.

Lemma create_inv_Returned req w resp w' :
  create openai req w = (Returned resp, w') →
  openai (trace w) req = Ok resp ∧ w' = log (ERequest req) w.
Proof.
  unfold create. destruct (openai _ _); [by intros [= -> <-]|done].
Qed.

Lemma index_inv_Returned {A} (xs : list A) i w x w' :
  index xs i w = (Returned x, w') → xs !! i = Some x ∧ w' = w.
Proof. unfold index. destruct (xs !! i); [by intros [= -> ->]|done]. Qed.


Lemma retokenize_inv text w out w' :
  retokenize self text w = (Returned out, w') →
  retokenization self text = Ok out ∧ w' = w.
Proof.
  unfold retokenize.
  intros (rows & w1 & [Hcall ->]%lift_inv_Returned
          & [Hrow ->]%index_inv_Returned)%bind_inv_Returned.
  apply call_Str_inv in Hcall as (ids & Hids & ->).
  by injection Hrow as ->.
Qed.



End chat_inversion.




Section mock_flaky.
Import OpenAIModel.
Implicit Types (w : World Z).

Lemma sleeps_log_sleep w seconds :
  Mock.sleeps (trace (log (ESleep seconds) w)) = S (Mock.sleeps (trace w)).
Proof.
  unfold Mock.sleeps. simpl. rewrite filter_app, length_app. simpl. lia.
Qed.

Lemma sleeps_log_other ev w :
  is_sleep ev = false →
  Mock.sleeps (trace (log ev w)) = Mock.sleeps (trace w).
Proof.
  intros Hev. unfold Mock.sleeps. simpl. rewrite filter_app, length_app.
  rewrite filter_cons_False by (rewrite Hev; tauto). simpl. lia.
Qed.

(** Against the backend that turns down [k] chat requests, the loop
    sleeps ten seconds after each refusal and returns at the first
    answer; it sends no probe. *)
Lemma flaky_loop k d gc params w :
  Mock.sleeps (trace w) + d = k →
  sampling Mock.sub_one Mock.model50 gc w = (Returned params, w) →
  ∃ w',
    while_true Mock.sub_one (Mock.flaky_chat_backend k) (S d) Mock.model50 gc
      (Nested [[97; 98]%Z]) true w = (Returned [[97; 98]%Z], w') ∧
    filter (λ ev, is_sleep ev) (trace w') =
      filter (λ ev, is_sleep ev) (trace w) ++ replicate d (ESleep 10) ∧
    filter (λ ev, is_probe ev) (trace w') = filter (λ ev, is_probe ev) (trace w).
Proof.
  revert w. induction d as [|d IH]; intros w Hk Hs.
  - exists (log (ERequest (chat_request Mock.model50 "ab" params)) w).
    split; [|split].
    + apply while_true_break. rewrite try_body_chat.
      erewrite bind_Returned; [reflexivity|]. simpl items.
      erewrite chat_for_answered; [reflexivity|reflexivity|exact Hs|..].
      * unfold Mock.flaky_chat_backend, chat_request.
        rewrite bool_decide_eq_false_2 by lia. reflexivity.
      * reflexivity.
    + simpl. rewrite filter_app, filter_cons_False by (simpl; tauto).
      by rewrite filter_nil.
    + simpl. rewrite filter_app, filter_cons_False by (simpl; tauto).
      by rewrite filter_nil, app_nil_r.
  - set (req := chat_request Mock.model50 "ab" params).
    set (e := if Nat.even (Mock.sleeps (trace w)) then RateLimitError
              else APIError).
    assert (try_body Mock.sub_one (Mock.flaky_chat_backend k) Mock.model50 gc
              (Nested [[97; 98]%Z]) true w = (Raised e, log (ERequest req) w))
      as Hbody.
    { rewrite try_body_chat. erewrite bind_Raised; [reflexivity|]. simpl items.
      eapply chat_for_refused; [reflexivity|exact Hs|].
      unfold Mock.flaky_chat_backend, chat_request.
      rewrite bool_decide_eq_true_2 by lia. unfold e.
      by destruct (Nat.even _). }
    destruct (while_true_retry Mock.sub_one (Mock.flaky_chat_backend k) (S d)
                Mock.model50 gc (Nested [[97; 98]%Z]) true w e _ Hbody)
      as [msg ->].
    { unfold e. destruct (Nat.even _); auto. }
    set (w2 := log (ESleep 10) (log (EDebug msg) (log (ERequest req) w))).
    destruct (IH w2) as (w' & Hrun & Hsl & Hpr).
    { unfold w2. rewrite sleeps_log_sleep, !sleeps_log_other by done. lia. }
    { rewrite (sampling_frame _ _ _ _ w) by done. by rewrite Hs. }
    exists w'. split; [done|]. split.
    + rewrite Hsl. unfold w2. simpl. rewrite !filter_app.
      rewrite (filter_cons_False _ (ERequest req)) by (simpl; tauto).
      rewrite (filter_cons_False _ (EDebug msg)) by (simpl; tauto).
      rewrite (filter_cons_True _ (ESleep 10)) by done.
      rewrite !filter_nil, !app_nil_r, <-app_assoc. done.
    + rewrite Hpr. unfold w2. simpl. rewrite !filter_app.
      rewrite (filter_cons_False _ (ERequest req)) by (simpl; tauto).
      rewrite (filter_cons_False _ (EDebug msg)) by (simpl; tauto).
      rewrite (filter_cons_False _ (ESleep 10)) by (simpl; tauto).
      by rewrite !filter_nil, !app_nil_r.
Qed.

Lemma flaky_generate k :
  let r := Mock.generate (Mock.flaky_chat_backend k) (S k) Mock.model50
             (Tensor.Tensor2 [[97; 98; 50]%Z]) None [] Mock.world0 in
  r.1 = Returned (Tensor.Tensor2 [[97; 98]%Z]) ∧
  filter (λ ev, is_sleep ev) (trace r.2) = replicate k (ESleep 10) ∧
  length (filter (λ ev, is_probe ev) (trace r.2)) = 1.
Proof.
  intros r. subst r. unfold Mock.generate, generate.
  erewrite bind_Returned; [|vm_compute; reflexivity].
  erewrite bind_Returned; [|vm_compute; reflexivity].
  match goal with
  | |- context [(while_true _ _ _ _ ?gc _ _ ≫= _) ?w] =>
      destruct (flaky_loop k k gc (Mock.params50 1) w) as (w' & Hrun & Hsl & Hpr)
  end.
  - reflexivity.
  - vm_compute. reflexivity.
  - simpl remove_padding in *.
    erewrite bind_Returned; [|exact Hrun].
    simpl. rewrite Hsl, Hpr. done.
Qed.
End mock_flaky.

(** C2, as stated, fails.  The probe is sent before the loop, outside the
    [try] whose [except] clauses retry: when the probe is rate limited,
    [generate] raises the rate-limit error after that one request,
    without sleeping and without a second attempt. *)
Lemma probe_rate_limit_not_retried :
  let r := Mock.generate Mock.rate_limited_backend 5 Mock.model50
             (Tensor.Tensor2 [[97; 98; 50]%Z]) None [] Mock.world0 in
  r.1 = Raised RateLimitError ∧
  trace r.2 = [ERequest (CompletionProbe "mock-model" "Test" 10)].
Proof. vm_compute. done. Qed.

(** C2, amended.  A rate-limit error or an API error raised by the probe
    is not retried: [generate] raises it, having sent the probe only.
    Inside the loop, an iteration that ends in one of the two errors is
    followed by a debug message, a sleep of 10 seconds and a new
    iteration with the classification already made (no new probe); there
    is no bound on the number of such retries: a backend that turns
    down the first [k] chat requests is asked [k + 1] times, after [k]
    sleeps of 10 seconds and one probe. *)
Theorem retry_covers_dispatch_only :
  (∀ pyval (sub_one : pyval → result pyval) defaults openai fuel self inputs
     generation_config kwargs (w : World pyval) e,
     openai (trace w) (probe self) = Err e →
     e = RateLimitError ∨ e = APIError →
     let r := OpenAIModel.generate sub_one defaults openai fuel self inputs
                generation_config kwargs w in
     r.1 = Raised e ∧ trace r.2 = trace w ++ [ERequest (probe self)]) ∧
  (∀ pyval (sub_one : pyval → result pyval) openai fuel self gc inputs_list
     is_chat_model (w w1 : World pyval) e,
     OpenAIModel.try_body sub_one openai self gc inputs_list is_chat_model w
       = (Raised e, w1) →
     e = RateLimitError ∨ e = APIError →
     ∃ msg,
       OpenAIModel.while_true sub_one openai (S fuel) self gc inputs_list
         is_chat_model w =
       OpenAIModel.while_true sub_one openai fuel self gc inputs_list
         is_chat_model (log (ESleep 10) (log (EDebug msg) w1))) ∧
  (∀ k,
     let r := Mock.generate (Mock.flaky_chat_backend k) (S k) Mock.model50
                (Tensor.Tensor2 [[97; 98; 50]%Z]) None [] Mock.world0 in
     r.1 = Returned (Tensor.Tensor2 [[97; 98]%Z]) ∧
     filter (λ ev, is_sleep ev) (trace r.2) = replicate k (ESleep 10) ∧
     length (filter (λ ev, is_probe ev) (trace r.2)) = 1).
Proof.
  split; [|split].
  - intros pyval sub_one defaults openai fuel self inputs ogc kwargs w e
      Hans He r. unfold r.
    destruct (generate_by_probe sub_one defaults openai fuel self inputs
                ogc kwargs w) as [Htr ->].
    rewrite Hans. destruct He as [-> | ->]; simpl; by rewrite Htr.
  - intros. by eapply while_true_retry.
  - apply flaky_generate.
Qed.

(** The rate-limited probe, and the first iteration against a backend
    that turns down one chat request. *)
Lemma retry_covers_dispatch_only_witness :
  let w := {| heap := {[ 1%positive := Mock.GenerationConfig_defaults ]};
              trace := [] |} in
  (Mock.generate Mock.rate_limited_backend 5 Mock.model50
     (Tensor.Tensor2 [[97; 98; 50]%Z]) None [] Mock.world0).1
    = Raised RateLimitError ∧
  ∃ msg w1,
    OpenAIModel.while_true Mock.sub_one (Mock.flaky_chat_backend 1) 2
      Mock.model50 1 (Nested [[97; 98]%Z]) true w =
    OpenAIModel.while_true Mock.sub_one (Mock.flaky_chat_backend 1) 1
      Mock.model50 1 (Nested [[97; 98]%Z]) true
      (log (ESleep 10) (log (EDebug msg) w1)).
Proof.
  intros w. destruct retry_covers_dispatch_only as (Hprobe & Hloop & _).
  split.
  - refine (proj1 (Hprobe Z Mock.sub_one Mock.GenerationConfig_defaults
                     Mock.rate_limited_backend 5 Mock.model50
                     (Tensor.Tensor2 [[97; 98; 50]%Z]) None [] Mock.world0
                     RateLimitError _ _)).
    + reflexivity.
    + left. reflexivity.
  - destruct (Hloop Z Mock.sub_one (Mock.flaky_chat_backend 1) 1 Mock.model50
                1%positive (Nested [[97; 98]%Z]) true w
                (log (ERequest (chat_request Mock.model50 "ab" (Mock.params50 1))) w)
                RateLimitError) as [msg Hmsg].
    + vm_compute. reflexivity.
    + left. reflexivity.
    + exists msg. eexists. exact Hmsg.
Defined.

(** ** Padding in and out *)

(** What lines 181-196 do remove: the pad token id of the configuration,
    when it has one. *)
Lemma remove_padding_rows self rows p :
  PretrainedConfig.pad_token_id (OpenAIModel.config self) = Some p →
  ∃ stripped,
    OpenAIModel.remove_padding self (Tensor.Tensor2 rows) = Nested stripped ∧
    Forall (λ row, p ∉ row) stripped.
Proof.
  intros Hp. eexists. split; [reflexivity|].
  apply Forall_fmap, Forall_forall. intros row _. simpl.
  rewrite list_elem_of_filter, Hp. simpl.
  intros [Hne _]. by apply bool_decide_eq_true in Hne.
Qed.

(** C5.  The claim fails on the code.  [generate] strips the pad token id
    of the configuration ([self.config.pad_token_id]) but the tokenizer
    pads, and [generate] pads again, with the tokenizer's id, which is -1
    when the configuration has 0 or nothing.  With the configured id 0:
    the tokenizer pads a batch with -1; that -1 is sent to a
    completion-style backend inside the prompt; and with a chat-style
    backend a 0 is stripped from the input while -1 is what pads the
    output.  With no configured id nothing is stripped at all. *)
Theorem pad_id_stripped_is_not_pad_id_used :
  let tokenizer := OpenAIModel.tokenizer Mock.model_pad0 in
  let batch := [[97; 98]; [99; -1]]%Z in
  PretrainedConfig.pad_token_id (OpenAIModel.config Mock.model_pad0)
    = Some 0%Z ∧
  OpenAITokenizer.pad_token_id tokenizer = (-1)%Z ∧
  OpenAITokenizer.call tokenizer (OpenAITokenizer.StrList ["ab"; "c"])
    = Ok batch ∧
  trace (Mock.generate Mock.completion_backend 1 Mock.model_pad0
           (Tensor.Tensor2 batch) None [] Mock.world0).2
    = [ERequest (CompletionProbe "mock-model" "Test" 10);
       ERequest (Completion "mock-model" (Nested batch) (Mock.params50 1))] ∧
  (Mock.generate Mock.chat_backend 1 Mock.model_pad0
     (Tensor.Tensor2 [[97; 98]; [99; 0]]%Z) None [] Mock.world0).1
    = Returned (Tensor.Tensor2 batch) ∧
  trace (Mock.generate Mock.completion_backend 1 Mock.model_nopad
           (Tensor.Tensor2 batch) None [] Mock.world0).2
    = [ERequest (CompletionProbe "mock-model" "Test" 10);
       ERequest (Completion "mock-model" (Nested batch) (Mock.params50 1))].
Proof. vm_compute. done. Qed.

(** * Further properties of the tokenizer and of [generate] *)

(** ** More on the tokenizer *)

Section tokenizer_more.
Import OpenAITokenizer.
Implicit Types (self : OpenAITokenizer.t) (token_ids : list Z).

Lemma mapM_Err_iff {A B} (f : A → result B) l e :
  mapM f l = Err e ↔
  ∃ pre x post,
    l = pre ++ x :: post ∧ (∀ y, y ∈ pre → ∃ b, f y = Ok b) ∧ f x = Err e.
Proof.
  split.
  - induction l as [|x l IH]; simpl; [done|].
    destruct (f x) as [b|e'] eqn:Hx; simpl.
    + destruct (mapM f l) as [k|e'] eqn:Hl; simpl; [done|].
      intros [= ->]. destruct IH as (pre & y & post & -> & Hpre & Hy); [done|].
      exists (x :: pre), y, post. split; [done|]. split; [|done].
      intros z [->|Hz]%elem_of_cons; eauto.
    + intros [= ->]. exists [], x, l. split; [done|]. split; [|done].
      intros y Hy. by apply elem_of_nil in Hy.
  - intros (pre & x & post & -> & Hpre & Hx).
    induction pre as [|y pre IH]; simpl.
    + by rewrite Hx.
    + destruct (Hpre y) as [b ->]; [left|]. simpl.
      rewrite IH; [done|]. intros z Hz. apply Hpre. by right.
Qed.

Lemma call_unfold self text :
  call self text =
  (input_ids ← mapM (encode_text self) (text_list text);
   pad_sequence input_ids (pad_token_id self)).
Proof. by destruct text. Qed.

(** X1.  [__call__] raises in two cases only: on an empty list of strings,
    where padding is refused, and when the encoding refuses one of the
    strings, in which case the error is that of the first refused string
    and the strings after it are not looked at. *)
Theorem call_raises_iff self (text : text_arg) (e : exn) :
  call self text = Err e ↔
  (text_list text = [] ∧ e = RuntimeError) ∨
  (∃ before refused after,
     text_list text = before ++ refused :: after ∧
     (∀ t, t ∈ before → ∃ ids, encode_text self t = Ok ids) ∧
     encode_text self refused = Err e).
Proof.
  rewrite call_unfold. split.
  - destruct (mapM (encode_text self) (text_list text)) as [encs|e'] eqn:Hm;
      simpl.
    + intros Hpad. left. destruct encs as [|enc encs]; [|done].
      injection Hpad as <-. split; [|done].
      apply mapM_Ok_Forall2, Forall2_nil_inv_r in Hm. done.
    + intros [= ->]. right. by apply mapM_Err_iff.
  - intros [[-> ->]|H]; [done|].
    apply mapM_Err_iff in H. by rewrite H.
Qed.

(** Padding added on the right with the tokenizer's pad id is invisible
    to [decode]. *)
Lemma decode_pad_to self max_len token_ids :
  decode self (pad_to max_len (pad_token_id self) token_ids) =
  decode self token_ids.
Proof.
  unfold decode, pad_to. rewrite filter_app. f_equal.
  assert (filter (λ token_id, token_id ≠ pad_token_id self)
            (replicate (max_len - length token_ids) (pad_token_id self)) = [])
    as ->; [|by rewrite app_nil_r].
  induction (max_len - length token_ids) as [|n IH]; [done|].
  simpl. by rewrite filter_cons_False by (intros H; by apply H).
Qed.

Lemma filter_no_pad (pad : Z) token_ids :
  pad ∉ token_ids → filter (λ token_id, token_id ≠ pad) token_ids = token_ids.
Proof.
  induction token_ids as [|x l IH]; [done|].
  intros [Hx Hl]%not_elem_of_cons.
  rewrite filter_cons_True by done. by rewrite IH.
Qed.

(** X2.  Encoding a batch and decoding its rows gives the strings back:
    when the encoding of every string of a non-empty batch is free of the
    pad id and is decoded to the string by the encoding, [__call__]
    returns and [decode] maps row [i] to string [i], whatever padding the
    row got. *)
Theorem decode_call_round_trip self (texts : list string) :
  texts ≠ [] →
  Forall (λ text, ∃ ids,
            encode_text self text = Ok ids ∧
            (pad_token_id self ∉ ids) ∧
            Encoding.decode (encoding self) ids = Ok text) texts →
  ∃ rows,
    call self (StrList texts) = Ok rows ∧
    Forall2 (λ text row, decode self row = Ok text) texts rows.
Proof.
  intros Hne Hall.
  destruct (mapM_Ok_total (encode_text self) texts) as [encs Hencs].
  { intros text Ht. rewrite Forall_forall in Hall.
    destruct (Hall text Ht) as (ids & ? & _). eauto. }
  pose proof Hencs as HF%mapM_Ok_Forall2.
  assert (encs ≠ []) as Hencs_ne.
  { intros ->. by apply Forall2_nil_inv_r in HF. }
  eexists. split.
  { rewrite call_unfold. simpl text_list. rewrite Hencs. simpl.
    by apply pad_sequence_Ok. }
  apply Forall2_fmap_r.
  set (n := max_list (length <$> encs)). clearbody n.
  clear Hencs Hencs_ne Hne.
  induction HF as [|text ids texts encs Hx _ IH]; [constructor|].
  apply Forall_cons in Hall as [(ids' & Hids' & Hpad & Hdec) Hall].
  constructor; [|by apply IH].
  rewrite Hx in Hids'. injection Hids' as <-. cbv beta.
  unfold compose. rewrite decode_pad_to. unfold decode. by rewrite filter_no_pad.
Qed.
End tokenizer_more.

(** The batch of "ab" and "c", padded with 50, is decoded to the two
    strings. *)
Lemma decode_call_round_trip_witness :
  let tokenizer := OpenAIModel.tokenizer Mock.model50 in
  ∃ rows,
    OpenAITokenizer.call tokenizer (OpenAITokenizer.StrList ["ab"; "c"])
      = Ok rows ∧
    Forall2 (λ text row, OpenAITokenizer.decode tokenizer row = Ok text)
      ["ab"; "c"] rows.
Proof.
  intros tokenizer.
  apply (decode_call_round_trip tokenizer ["ab"; "c"]).
  - discriminate.
  - repeat constructor; eexists;
      (split; [reflexivity|split; [|reflexivity]]);
      apply (bool_decide_unpack _); by vm_compute.
Defined.

(** ** Stripping the inputs and padding the outputs *)

Section padding_more.
Import OpenAIModel.
Implicit Types (self : OpenAIModel.t).

Lemma filter_py_ne_None (ids : list Z) :
  filter (λ x, py_ne x None = true) ids = ids.
Proof.
  induction ids as [|x l IH]; [done|].
  rewrite filter_cons_True by done. by rewrite IH.
Qed.

Lemma filter_py_ne_Some p (ids : list Z) :
  filter (λ x, py_ne x (Some p) = true) ids = filter (λ x, x ≠ p) ids.
Proof.
  apply list_filter_iff. intros x. simpl. by rewrite bool_decide_eq_true.
Qed.

(** X3.  Lines 181-196 keep the number of rows of a batch.  When the
    configuration has a pad token id, each row is left as the
    sub-sequence of its ids other than that id; when it has none, each
    row is left as it is.  Stripping what has been stripped changes
    nothing. *)
Theorem remove_padding_batch self (rows : list (list Z)) :
  ∃ stripped,
    remove_padding self (Tensor.Tensor2 rows) = Nested stripped ∧
    length stripped = length rows ∧
    Forall2 (λ row kept,
               (kept `sublist_of` row) ∧
               match PretrainedConfig.pad_token_id (config self) with
               | Some p =>
                   (p ∉ kept) ∧
                   ∀ t, t ≠ p → occurrences t kept = occurrences t row
               | None => kept = row
               end) rows stripped ∧
    remove_padding self (Tensor.Tensor2 stripped) = Nested stripped.
Proof.
  eexists. split; [reflexivity|]. split; [by rewrite length_fmap|]. split.
  - apply Forall2_fmap_r, Forall_Forall2_diag, Forall_forall.
    intros row _. simpl. split; [apply sublist_filter|].
    destruct (PretrainedConfig.pad_token_id (config self)) as [p|].
    + rewrite filter_py_ne_Some. split.
      * rewrite list_elem_of_filter. intros [Hne _]. by apply Hne.
      * intros t Ht. by apply occurrences_filter_ne.
    + apply filter_py_ne_None.
  - simpl. f_equal. rewrite <-list_fmap_compose. apply list_fmap_ext.
    intros i row _. simpl.
    rewrite list_filter_filter. apply list_filter_iff. tauto.
Qed.

(** X4.  Lines 278-284, for a batch: the output lists, if there is one at
    least, become the rows of a rectangular tensor, in order; each row
    starts with its output list, and [decode] gives on the row what it
    gives on the output list, the padding being the tokenizer's pad id. *)
Theorem reassemble_batch self (completion_ids_list : list (list Z)) :
  completion_ids_list ≠ [] →
  ∃ padded max_len,
    reassemble self true completion_ids_list = Ok (Tensor.Tensor2 padded) ∧
    Forall (λ row, length row = max_len) padded ∧
    Forall2 (λ completion_ids row,
               take (length completion_ids) row = completion_ids ∧
               OpenAITokenizer.decode (tokenizer self) row =
               OpenAITokenizer.decode (tokenizer self) completion_ids)
      completion_ids_list padded.
Proof.
  intros Hne. unfold reassemble.
  rewrite pad_sequence_Ok by done. simpl.
  eexists _, _. split; [reflexivity|]. split.
  - apply Forall_fmap, Forall_forall. intros ids Hids. simpl.
    apply length_pad_to. by apply length_le_max_list.
  - apply Forall2_fmap_r, Forall_Forall2_diag, Forall_forall.
    intros ids _. simpl. split; [apply take_app_length|].
    apply decode_pad_to.
Qed.

Lemma reassemble_batch_witness :
  ∃ padded,
    reassemble Mock.model50 true [[97; 98]; [99]]%Z
      = Ok (Tensor.Tensor2 padded) ∧
    length padded = 2.
Proof.
  destruct (reassemble_batch Mock.model50 [[97; 98]; [99]]%Z)
    as (padded & max_len & Hre & _ & HF).
  - discriminate.
  - exists padded. split; [exact Hre|].
    symmetry. exact (Forall2_length _ _ _ HF).
Defined.
End padding_more.

(** ** What a call sends *)

Section emits_facts.
Context {pyval : Type}.
Implicit Types (w : World pyval) (h : gmap loc (gmap string pyval))
  (P : Event pyval → Prop).

Lemma emits_ret {A} h P (Q : A → Prop) a : Q a → emits h P Q (mret a).
Proof.
  intros HQ w Hw. split; [done|]. split; [|done].
  exists []. by rewrite app_nil_r.
Qed.

Lemma emits_raise {A} h P (Q : A → Prop) e : emits h P Q (raise e).
Proof.
  intros w Hw. split; [done|]. split; [|done].
  exists []. by rewrite app_nil_r.
Qed.

Lemma emits_lift {A} h P (r : result A) : emits h P (λ a, r = Ok a) (lift r).
Proof. destruct r; [by apply emits_ret|apply emits_raise]. Qed.

Lemma emits_getattr h P l name :
  emits h P (λ _ : pyval, True) (getattr l name).
Proof.
  intros w Hw. unfold getattr.
  destruct (heap w !! l ≫= _); (split; [done|]); (split; [|done]);
    exists []; by rewrite app_nil_r.
Qed.

Lemma emits_index {A} h P (xs : list A) i :
  emits h P (λ x, xs !! i = Some x) (index xs i).
Proof.
  unfold index. destruct (xs !! i); [by apply emits_ret|apply emits_raise].
Qed.

Lemma emits_emit h P ev : P ev → emits h P (λ _, True) (emit ev).
Proof.
  intros HP w Hw. split; [done|]. split; [|done].
  exists [ev]. split; [done|]. by constructor.
Qed.

Lemma emits_weaken {A} h P (Q Q' : A → Prop) m :
  (∀ a, Q a → Q' a) → emits h P Q m → emits h P Q' m.
Proof.
  intros HQ Hm w Hw. destruct (Hm w Hw) as (Hh & Hevs & Hout).
  split; [done|]. split; [done|].
  destruct (m w).1; [by apply HQ|done..].
Qed.

Lemma emits_bind {A B} h P (Q : A → Prop) (R : B → Prop) m (f : A → M pyval B) :
  emits h P Q m → (∀ a, Q a → emits h P R (f a)) → emits h P R (m ≫= f).
Proof.
  intros Hm Hf w Hw. destruct (Hm w Hw) as (Hh & (evs & Htr & Hevs) & Hout).
  unfold mbind, M_bind. destruct (m w) as [[a|e|] w1]; simpl in *.
  - destruct (Hf a Hout w1 Hh) as (Hh' & (evs' & Htr' & Hevs') & Hout').
    split; [done|]. split; [|done].
    exists (evs ++ evs'). rewrite Htr', Htr, app_assoc. split; [done|].
    by apply Forall_app.
  - split; [done|]. split; [eauto|done].
  - split; [done|]. split; [eauto|done].
Qed.

Lemma emits_mapM {A B} h P (f : A → M pyval B) (l : list A) :
  (∀ a, a ∈ l → emits h P (λ _, True) (f a)) →
  emits h P (λ _, True) (mapM f l).
Proof.
  induction l as [|x l IH]; intros Hf; simpl; [by apply emits_ret|].
  eapply emits_bind; [apply Hf; left|]. intros y _.
  eapply emits_bind; [apply IH; intros; apply Hf; by right|].
  intros k _. by apply emits_ret.
Qed.
End emits_facts.

Section dispatch_events.
Import OpenAIModel.
Context {pyval : Type}.
Variable sub_one : pyval → result pyval.
Variable openai : list (Event pyval) → Request pyval → result Response.
Variable self : OpenAIModel.t.
Variable gc : loc.
Variable h : gmap loc (gmap string pyval).
Implicit Types (w : World pyval) (P : Event pyval → Prop).

Lemma emits_create P req :
  P (ERequest req) → emits h P (λ _, True) (create openai req).
Proof.
  intros HP w Hw. rewrite create_world. split; [done|].
  split; [|by destruct (create _ _ _).1].
  exists [ERequest req]. split; [done|]. by constructor.
Qed.

Lemma emits_sampling P :
  emits h P (λ params, sampling_of sub_one self gc h = Returned params)
    (sampling sub_one self gc).
Proof.
  intros w Hw.
  rewrite (sampling_frame sub_one self gc w {| heap := h; trace := [] |})
    by done.
  simpl. split; [done|]. split; [exists []; by rewrite app_nil_r|].
  fold (sampling_of sub_one self gc h). by destruct (sampling_of _ _ _ _).
Qed.

Lemma emits_retokenize P text :
  emits h P (λ _, True) (retokenize (pyval:=pyval) self text).
Proof.
  unfold retokenize. eapply emits_bind; [apply emits_lift|].
  intros rows _. eapply emits_weaken; [|apply emits_index]. done.
Qed.

Lemma emits_choice_text P choice :
  emits h P (λ _, True) (choice_text (pyval:=pyval) choice).
Proof. destruct choice; [by apply emits_ret|apply emits_raise]. Qed.

Lemma emits_choice_message_content P choice :
  emits h P (λ _, True) (choice_message_content (pyval:=pyval) choice).
Proof. destruct choice; [apply emits_raise|by apply emits_ret]. Qed.

Lemma emits_decode_item P input_ids :
  emits h P (λ content, ∃ ids,
               input_ids = ItemList ids ∧
               OpenAITokenizer.decode (tokenizer self) ids = Ok content)
    (decode_item (pyval:=pyval) self input_ids).
Proof.
  destruct input_ids as [z|ids]; [apply emits_raise|]. simpl.
  eapply emits_weaken; [|apply emits_lift]. eauto.
Qed.

Lemma emits_completion_branch inputs_list :
  emits h (dispatch_event sub_one self gc h inputs_list false) (λ _, True)
    (completion_branch sub_one openai self gc inputs_list).
Proof.
  unfold completion_branch.
  eapply emits_bind; [apply emits_sampling|]. intros params Hs.
  eapply emits_bind; [apply emits_create; by exists params|]. intros resp _.
  apply emits_mapM. intros choice _.
  eapply emits_bind; [apply emits_choice_text|]. intros text _.
  apply emits_retokenize.
Qed.

Lemma emits_chat_for inputs_list inputs acc :
  (∀ x, x ∈ inputs → x ∈ items inputs_list) →
  emits h (dispatch_event sub_one self gc h inputs_list true) (λ _, True)
    (chat_for sub_one openai self gc inputs acc).
Proof.
  revert acc. induction inputs as [|x inputs IH]; intros acc Hin; simpl.
  - by apply emits_ret.
  - eapply emits_bind; [apply emits_decode_item|].
    intros content (ids & -> & Hdec).
    eapply emits_bind; [apply emits_sampling|]. intros params Hs.
    eapply emits_bind.
    { apply emits_create. simpl. exists params. split; [done|].
      exists ids, content. split; [apply Hin; left|done]. }
    intros resp _.
    eapply emits_bind; [apply emits_index|]. intros choice _.
    eapply emits_bind; [apply emits_choice_message_content|]. intros c _.
    eapply emits_bind; [apply emits_retokenize|]. intros out _.
    apply IH. intros y Hy. apply Hin. by right.
Qed.

Lemma emits_try_body inputs_list chat :
  emits h (dispatch_event sub_one self gc h inputs_list chat) (λ _, True)
    (try_body sub_one openai self gc inputs_list chat).
Proof.
  unfold try_body. destruct chat; simpl.
  - eapply emits_bind; [by apply emits_chat_for|]. intros ids _.
    by apply emits_ret.
  - eapply emits_bind; [apply emits_completion_branch|]. intros ids _.
    by apply emits_ret.
Qed.

Lemma emits_while_true fuel inputs_list chat :
  emits h (dispatch_event sub_one self gc h inputs_list chat) (λ _, True)
    (while_true sub_one openai fuel self gc inputs_list chat).
Proof.
  induction fuel as [|fuel IH]; intros w Hw; simpl.
  { split; [done|]. split; [exists []; by rewrite app_nil_r|done]. }
  destruct (emits_try_body inputs_list chat w Hw)
    as (Hh & (evs & Htr & Hevs) & _).
  pose (P := dispatch_event sub_one self gc h inputs_list chat).
  assert (∀ msg, msg ∈ debug_messages →
    let r := (logger_debug msg;; sleep 10;;
              while_true sub_one openai fuel self gc inputs_list chat)
               (try_body sub_one openai self gc inputs_list chat w).2 in
    heap r.2 = h ∧
    (∃ evs, trace r.2 = trace w ++ evs ∧ Forall P evs) ∧
    match r.1 with Returned _ => True | _ => True end) as Hretry.
  { intros msg Hmsg r.
    assert (emits h P (λ _, True)
              (logger_debug msg;; sleep 10;;
               while_true sub_one openai fuel self gc inputs_list chat))
      as Hm.
    { eapply emits_bind; [by apply emits_emit|]. intros _ _.
      eapply emits_bind; [by apply emits_emit|]. intros _ _. apply IH. }
    destruct (Hm _ Hh) as (Hh' & (evs' & Htr' & Hevs') & _).
    split; [done|]. split; [|by destruct r.1].
    exists (evs ++ evs'). unfold r. rewrite Htr', Htr, app_assoc.
    split; [done|]. by apply Forall_app. }
  destruct (try_body _ _ _ _ _ _ w) as [[[ids|ids]|e|] w1]; simpl in *.
  - split; [done|]. split; [eauto|done].
  - destruct (IH w1 Hh) as (Hh' & (evs' & Htr' & Hevs') & _).
    split; [done|]. split; [|by destruct (while_true _ _ _ _ _ _ _ _).1].
    exists (evs ++ evs'). rewrite Htr', Htr, app_assoc. split; [done|].
    by apply Forall_app.
  - destruct e; try (split; [done|]; split; [eauto|done]).
    + destruct (Hretry _ ltac:(left)) as (? & ? & _).
      split; [done|]. split; [done|].
      match goal with |- match ?o with _ => _ end => by destruct o end.
    + destruct (Hretry _ ltac:(right; left)) as (? & ? & _).
      split; [done|]. split; [done|].
      match goal with |- match ?o with _ => _ end => by destruct o end.
  - split; [done|]. split; [eauto|done].
Qed.

Lemma emits_dispatch fuel inputs chat :
  emits h
    (dispatch_event sub_one self gc h (remove_padding self inputs) chat)
    (λ _, True) (dispatch sub_one openai fuel self inputs gc chat).
Proof.
  unfold dispatch. eapply emits_bind; [apply emits_while_true|].
  intros ids _. eapply emits_weaken; [|apply emits_lift]. done.
Qed.
End dispatch_events.

Section generate_events.
Import OpenAIModel.
Context {pyval : Type}.
Variable sub_one : pyval → result pyval.
Variable defaults : gmap string pyval.
Variable openai : list (Event pyval) → Request pyval → result Response.
Implicit Types (w : World pyval) (self : OpenAIModel.t).

(** The events of a whole call: the probe, then the events of the loop. *)
Lemma generate_events fuel self inputs generation_config kwargs w :
  let r := generate sub_one defaults openai fuel self inputs
             generation_config kwargs w in
  let h0 := heap (resolve_generation_config defaults generation_config
                    kwargs w).2 in
  let gc := default (fresh (dom (heap w))) generation_config in
  let chat := chat_signal (openai (trace w) (probe self)) in
  ∃ evs,
    trace r.2 = trace w ++ ERequest (probe self) :: evs ∧
    Forall (dispatch_event sub_one self gc h0 (remove_padding self inputs) chat)
      evs.
Proof.
  intros r h0 gc chat. unfold r.
  destruct (generate_by_probe sub_one defaults openai fuel self inputs
              generation_config kwargs w) as [Htr ->].
  fold gc. set (w1 := log _ _).
  assert (heap w1 = h0) as Hw1 by done.
  assert (trace w1 = trace w ++ [ERequest (probe self)]) as Htr1
    by (unfold w1; simpl; by rewrite Htr).
  assert (∀ b, ∃ evs,
    trace (dispatch sub_one openai fuel self inputs gc b w1).2
      = trace w ++ ERequest (probe self) :: evs ∧
    Forall (dispatch_event sub_one self gc h0 (remove_padding self inputs) b)
      evs) as Hd.
  { intros b.
    destruct (emits_dispatch sub_one openai self gc h0 fuel inputs b w1 Hw1)
      as (_ & (evs & Hevs & HF) & _).
    exists evs. split; [|done]. by rewrite Hevs, Htr1, <-app_assoc. }
  assert (∃ evs,
    trace w1 = trace w ++ ERequest (probe self) :: evs ∧
    Forall (dispatch_event sub_one self gc h0 (remove_padding self inputs) chat)
      evs) as Hstop by (exists []; by rewrite Htr1).
  unfold chat.
  destruct (openai (trace w) (probe self)) as [resp|e]; simpl; [apply Hd|].
  destruct e; try exact Hstop. simpl in *.
  destruct (contains _ _); [apply Hd|exact Hstop].
Qed.

Lemma filter_Forall_nil {A} (P : A → Prop) (f : A → bool) (l : list A) :
  Forall P l → (∀ x, P x → f x = false) → filter (λ x, f x) l = [].
Proof.
  intros HF Hf. induction HF as [|x l Hx _ IH]; [done|].
  rewrite filter_cons_False by (rewrite (Hf x Hx); tauto). exact IH.
Qed.

(** X5.  What one call of [generate] sends, whatever the backend answers
    and however the call ends: first the probe; after it only sleeps of
    ten seconds, the two debug messages, and requests that carry the
    sampling parameters read from the resolved configuration.  If the
    probe was answered with the chat signal, each request is a chat
    request with one user message, the decoded text of one of the
    stripped input sequences; otherwise each request is the batched
    completion request with all the stripped inputs as prompt. *)
Theorem generate_trace_shape fuel self inputs generation_config kwargs w :
  let r := generate sub_one defaults openai fuel self inputs
             generation_config kwargs w in
  let h0 := heap (resolve_generation_config defaults generation_config
                    kwargs w).2 in
  let gc := default (fresh (dom (heap w))) generation_config in
  let chat := chat_signal (openai (trace w) (probe self)) in
  heap r.2 = h0 ∧
  ∃ evs,
    trace r.2 = trace w ++ ERequest (probe self) :: evs ∧
    Forall (dispatch_event sub_one self gc h0 (remove_padding self inputs) chat)
      evs.
Proof.
  intros r h0 gc chat. split; [apply generate_heap|apply generate_events].
Qed.

(** X6.  Each call sends exactly one probe.  A call whose probe was
    answered with the chat signal sends no batched completion request,
    and any other call sends no chat request. *)
Theorem one_probe_per_call fuel self inputs generation_config kwargs w :
  let r := generate sub_one defaults openai fuel self inputs
             generation_config kwargs w in
  length (filter (λ ev, is_probe ev) (trace r.2))
    = S (length (filter (λ ev, is_probe ev) (trace w))) ∧
  if chat_signal (openai (trace w) (probe self))
  then filter (λ ev, is_batched_completion ev) (trace r.2)
       = filter (λ ev, is_batched_completion ev) (trace w)
  else filter (λ ev, is_chat_completion ev) (trace r.2)
       = filter (λ ev, is_chat_completion ev) (trace w).
Proof.
  intros r.
  destruct (generate_events fuel self inputs generation_config kwargs w)
    as (evs & Htr & HF).
  fold r in Htr. rewrite Htr. rewrite !filter_app, !filter_cons.
  simpl. split.
  - rewrite (filter_Forall_nil _ is_probe _ HF).
    + rewrite length_app. simpl. lia.
    + intros [req| |] Hev; [|done..].
      destruct Hev as (params & _ & Hreq).
      destruct (chat_signal _); [by destruct Hreq as (? & ? & _ & _ & ->)|].
      by rewrite Hreq.
  - destruct (chat_signal (openai (trace w) (probe self))).
    + rewrite (filter_Forall_nil _ is_batched_completion _ HF).
      * by rewrite app_nil_r.
      * intros [req| |] Hev; [|done..].
        by destruct Hev as (params & _ & ? & ? & _ & _ & ->).
    + rewrite (filter_Forall_nil _ is_chat_completion _ HF).
      * by rewrite app_nil_r.
      * intros [req| |] Hev; [|done..].
        by destruct Hev as (params & _ & ->).
Qed.

Lemma getattr_inv (l : loc) name w (v : pyval) w' :
  getattr l name w = (Returned v, w') →
  w' = w ∧ ∃ cfg, heap w !! l = Some cfg ∧ cfg !! name = Some v.
Proof.
  unfold getattr. destruct (heap w !! l) as [cfg|] eqn:Hcfg; simpl; [|done].
  destruct (cfg !! name) as [v'|] eqn:Hv; [|done].
  intros [= -> <-]. eauto.
Qed.

Lemma sampling_of_reads self gc h params :
  sampling_of sub_one self gc h = Returned params →
  ∃ cfg, h !! gc = Some cfg ∧ reads_configuration sub_one self cfg params.
Proof.
  unfold sampling_of. set (w0 := {| heap := h; trace := [] |}). intros Hs.
  assert (sampling sub_one self gc w0 = (Returned params, w0)) as Hrun.
  { rewrite (surjective_pairing (sampling sub_one self gc w0)).
    by rewrite Hs, sampling_world. }
  clear Hs. unfold sampling in Hrun.
  apply bind_inv_Returned in Hrun
    as (v1 & w1 & (-> & cfg & Hcfg & H1)%getattr_inv & Hrun).
  apply bind_inv_Returned in Hrun
    as (v2 & w2 & (-> & cfg2 & Hcfg2 & H2)%getattr_inv & Hrun).
  apply bind_inv_Returned in Hrun
    as (v3 & w3 & (-> & cfg3 & Hcfg3 & H3)%getattr_inv & Hrun).
  apply bind_inv_Returned in Hrun
    as (v4 & w4 & (-> & cfg4 & Hcfg4 & H4)%getattr_inv & Hrun).
  apply bind_inv_Returned in Hrun
    as (v5 & w5 & (-> & cfg5 & Hcfg5 & H5)%getattr_inv & Hrun).
  apply bind_inv_Returned in Hrun as (v6 & w6 & Hsub & Hrun).
  destruct (sub_one v5) as [v6'|] eqn:H6; [|done].
  injection Hsub as <- <-. injection Hrun as <-.
  rewrite Hcfg in Hcfg2, Hcfg3, Hcfg4, Hcfg5.
  injection Hcfg2 as <-. injection Hcfg3 as <-.
  injection Hcfg4 as <-. injection Hcfg5 as <-.
  exists cfg. split; [done|].
  unfold reads_configuration. simpl. repeat split; try done. eauto.
Qed.

(** X7.  The overrides reach the requests: every completion or chat
    request of a call carries the sampling parameters of the
    configuration as it is after the keyword arguments have been set on
    the given object, or on the defaults when no object is given, with
    [repetition_penalty - 1.0] as frequency penalty and the three stop
    sequences. *)
Theorem requests_carry_configuration fuel self inputs generation_config
    kwargs w (base : gmap string pyval) :
  match generation_config with
  | Some gc => heap w !! gc = Some base
  | None => base = defaults
  end →
  let r := generate sub_one defaults openai fuel self inputs
             generation_config kwargs w in
  ∃ added,
    trace r.2 = trace w ++ added ∧
    Forall (λ ev, ∀ params,
              request_params ev = Some params →
              reads_configuration sub_one self (set_attrs base kwargs) params)
      added.
Proof.
  intros Hbase r.
  destruct (generate_events fuel self inputs generation_config kwargs w)
    as (evs & Htr & HF).
  fold r in Htr. exists (ERequest (probe self) :: evs). split; [done|].
  constructor; [done|].
  eapply Forall_impl; [exact HF|]. intros ev Hev params Hparams.
  set (h0 := heap (resolve_generation_config defaults generation_config
                     kwargs w).2) in Hev.
  set (gc := default (fresh (dom (heap w))) generation_config) in Hev.
  assert (h0 !! gc = Some (set_attrs base kwargs)) as Hcfg.
  { unfold h0, gc. destruct generation_config as [l|].
    - unfold resolve_generation_config.
      erewrite bind_Returned; [|by apply apply_kwargs_spec]. simpl.
      apply lookup_insert_eq.
    - subst base. simpl. apply lookup_insert_eq. }
  destruct ev as [req| |]; [|done..].
  destruct Hev as (params' & Hs & Hreq).
  apply sampling_of_reads in Hs as (cfg & Hcfg' & Hreads).
  rewrite Hcfg in Hcfg'. injection Hcfg' as <-.
  destruct (chat_signal _).
  - destruct Hreq as (? & ? & _ & _ & ->). by injection Hparams as <-.
  - subst req. by injection Hparams as <-.
Qed.

End generate_events.

(** With no configuration object and the override
    [num_return_sequences = 3], the requests of a chat call ask for 3
    sequences. *)
Lemma requests_carry_configuration_witness :
  ∃ added,
    trace (Mock.generate Mock.chat_backend 1 Mock.model50
             (Tensor.Tensor2 [[97; 98; 50]]%Z) None
             [("num_return_sequences", 3%Z)] Mock.world0).2
      = trace Mock.world0 ++ added ∧
    Forall (λ ev, ∀ params,
              request_params ev = Some params →
              reads_configuration Mock.sub_one Mock.model50
                (set_attrs Mock.GenerationConfig_defaults
                   [("num_return_sequences", 3%Z)]) params)
      added.
Proof.
  apply (requests_carry_configuration Mock.sub_one
           Mock.GenerationConfig_defaults Mock.chat_backend 1 Mock.model50
           (Tensor.Tensor2 [[97; 98; 50]]%Z) None
           [("num_return_sequences", 3%Z)] Mock.world0
           Mock.GenerationConfig_defaults).
  reflexivity.
Defined.

(** ** The branches of the loop body *)

Section branches_more.
Import OpenAIModel.
Context {pyval : Type}.
Variable sub_one : pyval → result pyval.
Variable defaults : gmap string pyval.
Variable openai : list (Event pyval) → Request pyval → result Response.
Implicit Types (w : World pyval) (self : OpenAIModel.t) (gc : loc).

Lemma sampling_of_run self gc w :
  sampling sub_one self gc w = (sampling_of sub_one self gc (heap w), w).
Proof.
  by rewrite (sampling_frame sub_one self gc w {| heap := heap w; trace := [] |}).
Qed.

Lemma mapM_inv_pure {A B} (f : A → M pyval B) (R : A → B → Prop) l w ks w' :
  (∀ x w a w1, f x w = (Returned a, w1) → w1 = w ∧ R x a) →
  mapM f l w = (Returned ks, w') → w' = w ∧ Forall2 R l ks.
Proof.
  intros Hf. revert ks w'. induction l as [|x l IH]; intros ks w'; simpl.
  - intros [= <- <-]. split; [done|constructor].
  - intros (y & w1 & [-> Hy]%Hf & Hrun)%bind_inv_Returned.
    apply bind_inv_Returned in Hrun as (k & w2 & [-> Hk]%IH & [= <- <-]).
    split; [done|]. by constructor.
Qed.

Lemma mapM_run_pure {A B} (f : A → M pyval B) l ks w :
  Forall2 (λ x y, f x w = (Returned y, w)) l ks →
  mapM f l w = (Returned ks, w).
Proof.
  induction 1 as [|x y l ks Hx _ IH]; simpl; [done|].
  erewrite bind_Returned; [|exact Hx].
  erewrite bind_Returned; [|exact IH]. done.
Qed.

(** X8.  One pass through the completion branch comes to its end exactly
    when the configuration gives the sampling parameters, the backend
    answers the batched request, every choice of the answer has a text
    and every text can be re-tokenized.  Then one request has been sent,
    with all the stripped inputs as prompt, and there is one output
    sequence per returned choice, in the order of the choices: the
    re-tokenization of the text of the choice. *)
Theorem completion_branch_one_request self gc inputs_list w ids w' :
  completion_branch sub_one openai self gc inputs_list w = (Returned ids, w')
  ↔
  ∃ params resp,
    sampling_of sub_one self gc (heap w) = Returned params ∧
    openai (trace w) (completion_request self inputs_list params) = Ok resp ∧
    w' = log (ERequest (completion_request self inputs_list params)) w ∧
    Forall2 (λ choice out, ∃ text,
               choice = TextChoice text ∧ retokenization self text = Ok out)
      (choices resp) ids.
Proof.
  unfold completion_branch. split.
  - intros (params & w1 & Hs & Hrun)%bind_inv_Returned.
    rewrite sampling_of_run in Hs. injection Hs as Hs <-.
    apply bind_inv_Returned in Hrun
      as (resp & w2 & [Hans ->]%create_inv_Returned & Hrun).
    apply (mapM_inv_pure _ (λ choice out, ∃ text,
             choice = TextChoice text ∧ retokenization self text = Ok out))
      in Hrun as [-> HF].
    + by exists params, resp.
    + intros choice w3 out w4
        (text & w5 & Htext & [Hout ->]%retokenize_inv)%bind_inv_Returned.
      destruct choice as [text'|]; [|done]. injection Htext as -> ->. eauto.
  - intros (params & resp & Hs & Hans & -> & HF).
    erewrite bind_Returned; [|by rewrite sampling_of_run, Hs].
    erewrite bind_Returned;
      [|unfold create; fold (completion_request self inputs_list params);
        by rewrite Hans].
    apply mapM_run_pure. eapply Forall2_impl; [exact HF|].
    intros choice out (text & -> & Hout). simpl.
    erewrite bind_Returned; [|reflexivity]. by apply retokenize_Ok.
Qed.

(** An exception of the loop body that no [except] clause catches ends
    the call. *)
Lemma generate_raises_from_body fuel self inputs generation_config kwargs w e w2 :
  let w0 := (resolve_generation_config defaults generation_config kwargs w).2 in
  let gc := default (fresh (dom (heap w))) generation_config in
  let chat := chat_signal (openai (trace w) (probe self)) in
  (chat = true ∨ ∃ resp, openai (trace w) (probe self) = Ok resp) →
  try_body sub_one openai self gc (remove_padding self inputs) chat
    (log (ERequest (probe self)) w0) = (Raised e, w2) →
  e ≠ RateLimitError → e ≠ APIError →
  generate sub_one defaults openai (S fuel) self inputs generation_config
    kwargs w = (Raised e, w2).
Proof.
  intros w0 gc chat Hclass Hbody He1 He2.
  destruct (generate_by_probe sub_one defaults openai (S fuel) self inputs
              generation_config kwargs w) as [_ ->].
  fold w0 gc.
  assert (dispatch sub_one openai (S fuel) self inputs gc chat
            (log (ERequest (probe self)) w0) = (Raised e, w2)) as Hd.
  { unfold dispatch. erewrite bind_Raised; [done|].
    by apply while_true_raise. }
  unfold chat in *.
  destruct (openai (trace w) (probe self)) as [resp|e0]; [exact Hd|].
  destruct Hclass as [Hchat|[resp [=]]].
  destruct e0; simpl in Hchat; try done.
  simpl in Hd. rewrite Hchat in Hd. by rewrite Hchat.
Qed.
(** After [k] passes that are followed by another one, the loop goes on
    from the world they leave, with [k] units of fuel less. *)
Lemma while_true_passes k fuel self gc il chat w wk :
  passes sub_one openai self gc il chat k w = Some wk →
  while_true sub_one openai (k + fuel) self gc il chat w =
  while_true sub_one openai fuel self gc il chat wk.
Proof.
  revert w. induction k as [|k IH]; intros w; simpl.
  - by intros [= ->].
  - unfold next_pass.
    destruct (try_body _ _ _ _ _ _ w) as [[[ids|ids]|e|] w1]; try done.
    + apply IH.
    + destruct e; try done; intros Hk; by rewrite <-(IH _ Hk).
Qed.

(** X9.  An exception other than a rate-limit or API error that is raised
    inside the loop body, by a request, by the tokenizer or by a missing
    attribute, is never retried, in whichever pass of the loop it occurs:
    after any number [k] of passes that were retried, the call raises it
    as soon as it occurs, having sent nothing and slept no more after
    it. *)
Theorem error_not_retried k fuel self inputs generation_config kwargs w wk e w2 :
  let w0 := (resolve_generation_config defaults generation_config kwargs w).2 in
  let gc := default (fresh (dom (heap w))) generation_config in
  let chat := chat_signal (openai (trace w) (probe self)) in
  (chat = true ∨ ∃ resp, openai (trace w) (probe self) = Ok resp) →
  passes sub_one openai self gc (remove_padding self inputs) chat k
    (log (ERequest (probe self)) w0) = Some wk →
  try_body sub_one openai self gc (remove_padding self inputs) chat wk
    = (Raised e, w2) →
  e ≠ RateLimitError → e ≠ APIError →
  generate sub_one defaults openai (k + S fuel) self inputs generation_config
    kwargs w = (Raised e, w2).
Proof.
  intros w0 gc chat Hclass Hk Hbody He1 He2.
  destruct (generate_by_probe sub_one defaults openai (k + S fuel) self inputs
              generation_config kwargs w) as [_ ->].
  fold w0 gc.
  assert (dispatch sub_one openai (k + S fuel) self inputs gc chat
            (log (ERequest (probe self)) w0) = (Raised e, w2)) as Hd.
  { unfold dispatch. erewrite bind_Raised; [done|].
    rewrite (while_true_passes _ _ _ _ _ _ _ _ Hk).
    by apply while_true_raise. }
  unfold chat in *.
  destruct (openai (trace w) (probe self)) as [resp|e0]; [exact Hd|].
  destruct Hclass as [Hchat|[resp [=]]].
  destruct e0; simpl in Hchat; try done.
  simpl in Hd. rewrite Hchat in Hd. by rewrite Hchat.
Qed.

Lemma chat_for_no_choice self gc ids inputs acc w content params :
  OpenAITokenizer.decode (tokenizer self) ids = Ok content →
  sampling sub_one self gc w = (Returned params, w) →
  openai (trace w) (chat_request self content params)
    = Ok {| choices := [] |} →
  chat_for sub_one openai self gc (ItemList ids :: inputs) acc w =
  (Raised IndexError, log (ERequest (chat_request self content params)) w).
Proof.
  intros Hdec Hs Hans. simpl chat_for.
  erewrite bind_Returned; [|simpl; by rewrite Hdec].
  erewrite bind_Returned; [|exact Hs].
  erewrite bind_Returned;
    [|unfold create; fold (chat_request self content params);
      by rewrite Hans].
  done.
Qed.

(** X10.  [choices[0]] on an answer without choices: when the backend
    answers the chat request for the first input sequence with an empty
    list of choices, the call raises [IndexError] right after that
    request, without a retry. *)
Theorem no_choice_raises_IndexError fuel self row rows generation_config
    kwargs w content params :
  let w0 := (resolve_generation_config defaults generation_config kwargs w).2 in
  let gc := default (fresh (dom (heap w))) generation_config in
  let req := chat_request self content params in
  chat_signal (openai (trace w) (probe self)) = true →
  OpenAITokenizer.decode (tokenizer self)
    (filter (λ token_id,
               py_ne token_id (PretrainedConfig.pad_token_id (config self))
               = true) row) = Ok content →
  sampling_of sub_one self gc (heap w0) = Returned params →
  openai (trace w ++ [ERequest (probe self)]) req = Ok {| choices := [] |} →
  generate sub_one defaults openai (S fuel) self
    (Tensor.Tensor2 (row :: rows)) generation_config kwargs w
  = (Raised IndexError, log (ERequest req) (log (ERequest (probe self)) w0)).
Proof.
  intros w0 gc req Hchat Hdec Hs Hans.
  destruct (resolve_generation_config_Returned defaults generation_config
              kwargs w) as (l & w0' & Hres & _ & Htr).
  assert (trace w0 = trace w) as Htr0 by (unfold w0; by rewrite Hres).
  apply generate_raises_from_body; [by left| |done..].
  rewrite Hchat, try_body_chat.
  erewrite bind_Raised; [done|]. simpl items.
  apply chat_for_no_choice; [done| |].
  - by rewrite sampling_of_run, <-Hs.
  - simpl. by rewrite Htr0.
Qed.

(** X11.  Nothing to generate from, with a chat-style backend.  A 1-D
    input in which every token is the pad token of the configuration
    gives an empty 1-D tensor, and an empty batch makes the reassembly
    raise; in both cases the probe is the only request sent. *)
Theorem generate_chat_nothing_to_do fuel self ids generation_config kwargs w :
  let w0 := (resolve_generation_config defaults generation_config kwargs w).2 in
  let call inputs :=
    generate sub_one defaults openai (S fuel) self inputs generation_config
      kwargs w in
  chat_signal (openai (trace w) (probe self)) = true →
  filter (λ token_id,
            py_ne token_id (PretrainedConfig.pad_token_id (config self))
            = true) ids = [] →
  call (Tensor.Tensor1 ids)
    = (Returned (Tensor.Tensor1 []), log (ERequest (probe self)) w0) ∧
  call (Tensor.Tensor2 [])
    = (Raised RuntimeError, log (ERequest (probe self)) w0).
Proof.
  intros w0 call Hchat Hids. unfold call. split.
  - destruct (generate_by_probe sub_one defaults openai (S fuel) self
                (Tensor.Tensor1 ids) generation_config kwargs w) as [_ ->].
    fold w0. unfold chat_signal in Hchat.
    destruct (openai (trace w) (probe self)) as [resp|e]; [done|].
    destruct e; try done. rewrite Hchat.
    unfold dispatch. simpl remove_padding. rewrite Hids.
    erewrite bind_Returned; [|by apply while_true_break]. done.
  - destruct (generate_by_probe sub_one defaults openai (S fuel) self
                (Tensor.Tensor2 []) generation_config kwargs w) as [_ ->].
    fold w0. unfold chat_signal in Hchat.
    destruct (openai (trace w) (probe self)) as [resp|e]; [done|].
    destruct e; try done. rewrite Hchat.
    unfold dispatch. simpl remove_padding.
    erewrite bind_Returned; [|by apply while_true_break]. done.
Qed.
End branches_more.

(** The first chat request is rate limited and retried; the second one
    is refused as invalid, and the call raises that error. *)
Lemma error_not_retried_witness :
  (OpenAIModel.generate Mock.sub_one Mock.GenerationConfig_defaults
     Mock.refusing_chat_backend 3 Mock.model50
     (Tensor.Tensor2 [[97; 98; 50]]%Z) None [] Mock.world0).1
  = Raised (InvalidRequestError "invalid request").
Proof.
  change 3 with (1 + 2).
  erewrite (error_not_retried Mock.sub_one Mock.GenerationConfig_defaults
              Mock.refusing_chat_backend 1 1 Mock.model50
              (Tensor.Tensor2 [[97; 98; 50]]%Z) None [] Mock.world0 _
              (InvalidRequestError "invalid request")).
  - reflexivity.
  - left. reflexivity.
  - vm_compute. reflexivity.
  - vm_compute. reflexivity.
  - discriminate.
  - discriminate.
Defined.

(** The backend without choices, one input sequence. *)
Lemma no_choice_raises_IndexError_witness :
  (OpenAIModel.generate Mock.sub_one Mock.GenerationConfig_defaults
     no_choice_backend 3 Mock.model50 (Tensor.Tensor2 [[97; 98; 50]]%Z)
     None [] Mock.world0).1 = Raised IndexError.
Proof.
  erewrite (no_choice_raises_IndexError Mock.sub_one
              Mock.GenerationConfig_defaults no_choice_backend 2 Mock.model50
              [97; 98; 50]%Z [] None [] Mock.world0 "ab" (Mock.params50 1)).
  - reflexivity.
  - reflexivity.
  - reflexivity.
  - vm_compute. reflexivity.
  - reflexivity.
Defined.

(** A 1-D input of two pad tokens. *)
Lemma generate_chat_nothing_to_do_witness :
  (OpenAIModel.generate Mock.sub_one Mock.GenerationConfig_defaults
     Mock.chat_backend 1 Mock.model50 (Tensor.Tensor1 [50; 50]%Z)
     None [] Mock.world0).1 = Returned (Tensor.Tensor1 []).
Proof.
  destruct (generate_chat_nothing_to_do Mock.sub_one
              Mock.GenerationConfig_defaults Mock.chat_backend 0 Mock.model50
              [50; 50]%Z None [] Mock.world0) as [H1 _].
  - reflexivity.
  - reflexivity.
  - by rewrite H1.
Defined.

(** ** The requests of a chat-style call, in order *)

Section chat_order.
Import OpenAIModel.
Context {pyval : Type}.
Variable sub_one : pyval → result pyval.
Variable defaults : gmap string pyval.
Variable openai : list (Event pyval) → Request pyval → result Response.
Variable self : OpenAIModel.t.
Variable params : Sampling pyval.
Implicit Types (w : World pyval) (gc : loc).

(** The input sequences of the call. *)
Variable all_inputs : list (list Z).
Hypothesis decodable :
  ∀ ids, ids ∈ all_inputs →
    ∃ content, OpenAITokenizer.decode (tokenizer self) ids = Ok content.
Hypothesis answered :
  ∀ history ids content,
    ids ∈ all_inputs →
    OpenAITokenizer.decode (tokenizer self) ids = Ok content →
    ∃ c rest out,
      openai history (chat_request self content params)
        = Ok {| choices := MessageChoice c :: rest |} ∧
      retokenization self c = Ok out.

Lemma chat_for_requests gc inputs acc w :
  (∀ ids, ids ∈ inputs → ids ∈ all_inputs) →
  sampling sub_one self gc w = (Returned params, w) →
  ∃ contents outs,
    Forall2 (λ ids content,
               OpenAITokenizer.decode (tokenizer self) ids = Ok content)
      inputs contents ∧
    chat_for sub_one openai self gc (ItemList <$> inputs) acc w =
    (Returned (acc ++ outs),
     {| heap := heap w;
        trace := trace w ++
          ((λ content, ERequest (chat_request self content params))
             <$> contents) |}).
Proof.
  revert acc w. induction inputs as [|ids inputs IH]; intros acc w Hin Hs.
  - exists [], []. split; [constructor|]. simpl.
    rewrite !app_nil_r. by destruct w.
  - assert (ids ∈ all_inputs) as Hids by (apply Hin; left).
    destruct (decodable ids Hids) as [content Hdec].
    destruct (answered (trace w) ids content Hids Hdec)
      as (c & rest & out & Hans & Henc).
    set (w1 := log (ERequest (chat_request self content params)) w).
    destruct (IH (acc ++ [out]) w1) as (contents & outs & HF & Hrun).
    { intros ids' Hids'. apply Hin. by right. }
    { rewrite (sampling_frame _ _ _ _ w) by done. by rewrite Hs. }
    exists (content :: contents), (out :: outs).
    split; [by constructor|]. rewrite fmap_cons.
    erewrite chat_for_answered by done. fold w1. rewrite Hrun.
    simpl. by rewrite <-!app_assoc.
Qed.
End chat_order.

(** X12.  With a chat-style backend, a tokenizer that decodes the input
    sequences of the batch and a backend that answers every request made
    for one of them with at least one choice, the first of which the
    tokenizer encodes, a call on a batch sends, after the probe, exactly
    one chat request per input sequence, in the order of the input
    sequences, each with the decoded text of its stripped sequence, and
    nothing else: no sleep, no second request for a sequence. *)
Theorem chat_requests_in_order {pyval}
    (sub_one : pyval → result pyval) (defaults : gmap string pyval)
    (openai : list (Event pyval) → Request pyval → result Response)
    (self : OpenAIModel.t) (params : Sampling pyval)
    (fuel : nat) (rows : list (list Z))
    (generation_config : option loc) (kwargs : list (string * pyval))
    (w : World pyval) :
  let w0 := (OpenAIModel.resolve_generation_config defaults
               generation_config kwargs w).2 in
  let gc := default (fresh (dom (heap w))) generation_config in
  let inputs_list :=
    filter (λ token_id,
              py_ne token_id
                (PretrainedConfig.pad_token_id (OpenAIModel.config self))
              = true) <$> rows in
  (∀ ids, ids ∈ inputs_list →
     ∃ content,
       OpenAITokenizer.decode (OpenAIModel.tokenizer self) ids = Ok content) →
  (∀ history ids content,
     ids ∈ inputs_list →
     OpenAITokenizer.decode (OpenAIModel.tokenizer self) ids = Ok content →
     ∃ c rest out,
       openai history (chat_request self content params)
         = Ok {| choices := MessageChoice c :: rest |} ∧
       retokenization self c = Ok out) →
  chat_signal (openai (trace w) (probe self)) = true →
  OpenAIModel.sampling sub_one self gc w0 = (Returned params, w0) →
  ∃ contents,
    Forall2 (λ ids content,
               OpenAITokenizer.decode (OpenAIModel.tokenizer self) ids
               = Ok content)
      inputs_list contents ∧
    trace (OpenAIModel.generate sub_one defaults openai (S fuel) self
             (Tensor.Tensor2 rows) generation_config kwargs w).2
    = trace w ++ ERequest (probe self) ::
        ((λ content, ERequest (chat_request self content params))
           <$> contents).
Proof.
  intros w0 gc inputs_list Hdec Hans Hsig Hs.
  destruct (generate_by_probe sub_one defaults openai (S fuel) self
              (Tensor.Tensor2 rows) generation_config kwargs w) as [Htr ->].
  fold w0 gc. set (w1 := log (ERequest (probe self)) w0).
  destruct (openai (trace w) (probe self)) as [resp|e]; [done|].
  destruct e; try done. simpl in Hsig. rewrite Hsig.
  destruct (chat_for_requests sub_one openai self params inputs_list
              Hdec Hans gc inputs_list [] w1)
    as (contents & outs & HF & Hrun).
  { done. }
  { rewrite (sampling_frame _ _ _ _ w0) by done. by rewrite Hs. }
  exists contents. split; [done|].
  unfold dispatch.
  erewrite bind_Returned.
  2: { apply while_true_break. rewrite try_body_chat.
       erewrite bind_Returned; [reflexivity|]. exact Hrun. }
  rewrite lift_world. simpl. unfold w0. rewrite Htr. by rewrite <-app_assoc.
Qed.

(** Two input sequences: after the probe, the request for "ab" and then
    the request for "cde". *)
Lemma chat_requests_in_order_witness :
  ∃ contents,
    trace (Mock.generate Mock.chat_backend 1 Mock.model50
             (Tensor.Tensor2 [[97; 98; 50]; [99; 100; 101]]%Z) None []
             Mock.world0).2
    = ERequest (probe Mock.model50) ::
        ((λ content,
            ERequest (chat_request Mock.model50 content (Mock.params50 1)))
           <$> contents) ∧
    length contents = 2.
Proof.
  destruct (chat_requests_in_order Mock.sub_one
              Mock.GenerationConfig_defaults Mock.chat_backend Mock.model50
              (Mock.params50 1)
              0 [[97; 98; 50]; [99; 100; 101]]%Z None [] Mock.world0)
    as (contents & HF & Htr).
  - intros. eexists. reflexivity.
  - intros. eexists _, _, _. split; reflexivity.
  - reflexivity.
  - vm_compute. reflexivity.
  - exists contents. split; [exact Htr|].
    symmetry. exact (Forall2_length _ _ _ HF).
Defined.

(** ** Construction and classification *)

Section construction_more.
Import OpenAITokenizer.

(** X13.  [OpenAITokenizer.__init__] raises in three cases only, tried in
    this order: tiktoken has no encoding for the model; the encoding
    cannot decode the beginning-of-sequence id; it cannot decode the
    end-of-sequence id.  The ids it decodes are the configured ones, or
    -1 where the configuration has none or has 0. *)
Theorem init_raises_iff encoding_for_model mc hf (e : exn) :
  let bos := py_or (PretrainedConfig.bos_token_id hf) (-1) in
  let eos := py_or (PretrainedConfig.eos_token_id hf) (-1) in
  init encoding_for_model mc hf = Err e ↔
  encoding_for_model (ModelConfig.model_id mc) = Err e ∨
  ∃ enc,
    encoding_for_model (ModelConfig.model_id mc) = Ok enc ∧
    (Encoding.decode enc [bos] = Err e ∨
     (∃ bos_token, Encoding.decode enc [bos] = Ok bos_token) ∧
     Encoding.decode enc [eos] = Err e).
Proof.
  intros bos eos. unfold init. fold bos eos.
  destruct (encoding_for_model _) as [enc|e0] eqn:Henc; simpl.
  - destruct (Encoding.decode enc [bos]) as [bos_token|e1] eqn:Hbos; simpl.
    + destruct (Encoding.decode enc [eos]) as [eos_token|e2] eqn:Heos; simpl.
      * split; [done|].
        intros [?|(enc' & [= <-] & [?|[_ ?]])]; congruence.
      * split.
        -- intros [= ->]. right. exists enc. split; [done|]. right. eauto.
        -- intros [?|(enc' & [= <-] & [?|[_ ?]])]; congruence.
    + split.
      * intros [= ->]. right. exists enc. split; [done|]. by left.
      * intros [?|(enc' & [= <-] & [?|[[? ?] _]])]; congruence.
  - split.
    + intros [= ->]. by left.
    + intros [?|(enc' & ? & _)]; congruence.
Qed.
End construction_more.

Section classification_more.

Lemma append_cons c (s t : string) : String c s +:+ t = String c (s +:+ t).
Proof. reflexivity. Qed.

Lemma append_nil (t : string) : "" +:+ t = t.
Proof. reflexivity. Qed.

Lemma prefix_spec (needle hay : string) :
  String.prefix needle hay = true ↔ ∃ rest, hay = needle +:+ rest.
Proof.
  revert hay. induction needle as [|c needle IH]; intros hay.
  - destruct hay; simpl; (split; [eauto|done]).
  - setoid_rewrite append_cons.
    destruct hay as [|c' hay]; simpl; [split; [done|by intros [? ?]]|].
    destruct (Ascii.ascii_dec c c') as [->|Hne].
    + rewrite IH. split; intros [rest Hrest]; exists rest; congruence.
    + split; [done|]. intros [rest [= ? ?]]. done.
Qed.

Lemma contains_cons needle c hay :
  contains needle (String c hay) =
  String.prefix needle (String c hay) || contains needle hay.
Proof. reflexivity. Qed.

Lemma contains_nil needle :
  contains needle "" = String.prefix needle "" || false.
Proof. reflexivity. Qed.

Lemma contains_spec (needle hay : string) :
  contains needle hay = true ↔
  ∃ before after, hay = before +:+ needle +:+ after.
Proof.
  induction hay as [|c hay IH].
  - rewrite contains_nil, orb_false_r, prefix_spec. split.
    + intros [rest Hrest]. by exists "", rest.
    + intros ([|??] & after & Heq); [eauto|done].
  - rewrite contains_cons, orb_true_iff, prefix_spec, IH. split.
    + intros [[rest Hrest]|(before & after & ->)].
      * by exists "", rest.
      * by exists (String c before), after.
    + intros ([|c' before] & after & Heq).
      * left. eauto.
      * right. rewrite append_cons in Heq. injection Heq as -> ->. eauto.
Qed.

(** The answers to the probe that are the chat signal. *)
Lemma chat_signal_spec (answer : result Response) :
  chat_signal answer = true ↔
  ∃ before after,
    answer = Err (InvalidRequestError
                    (before +:+ "This is a chat model" +:+ after)).
Proof.
  destruct answer as [resp|e]; simpl.
  - split; [done|]. by intros (? & ? & ?).
  - destruct e; simpl; try (split; [done|]; by intros (? & ? & ?)).
    rewrite contains_spec. split.
    + intros (before & after & ->). eauto.
    + intros (before & after & [= ->]). eauto.
Qed.
End classification_more.

(** X14.  Lines 198-210: the classification sends the probe and nothing
    else, and its result is determined by the answer to the probe.  The
    model is a chat model exactly when the probe is answered with an
    invalid-request error whose text has "This is a chat model" somewhere
    in it; it is not a chat model exactly when the probe succeeds; every
    other error of the probe, an invalid-request error with another text
    among them, is raised as it is. *)
Theorem is_chat_model_iff {pyval}
    (openai : list (Event pyval) → Request pyval → result Response)
    (self : OpenAIModel.t) (w : World pyval) :
  let answer := openai (trace w) (probe self) in
  let r := OpenAIModel.is_chat_model openai self w in
  r.2 = log (ERequest (probe self)) w ∧
  (r.1 = Returned true ↔
   ∃ before after,
     answer = Err (InvalidRequestError
                     (before +:+ "This is a chat model" +:+ after))) ∧
  (r.1 = Returned false ↔ ∃ resp, answer = Ok resp) ∧
  (∀ e, r.1 = Raised e ↔
     answer = Err e ∧
     ¬ ∃ before after,
         e = InvalidRequestError
               (before +:+ "This is a chat model" +:+ after)) ∧
  r.1 ≠ OutOfFuel.
Proof.
  intros answer r. unfold r. rewrite is_chat_model_spec. fold answer. simpl.
  split; [done|].
  pose proof (chat_signal_spec answer) as Hsig.
  destruct answer as [resp|e0].
  - split; [split; [done|by intros (? & ? & ?)]|].
    split; [split; [eauto|done]|].
    split; [|done]. intros e. split; [done|by intros [? _]].
  - assert (match e0 with
            | InvalidRequestError str_e =>
                if contains "This is a chat model" str_e
                then Returned true else Raised (InvalidRequestError str_e)
            | _ => Raised e0
            end = if chat_signal (Err e0) then Returned true else Raised e0)
      as ->.
    { by destruct e0. }
    destruct (chat_signal (Err e0)) eqn:Hc.
    + destruct Hsig as [Hsig _].
      destruct (Hsig eq_refl) as (before & after & [= ->]).
      split; [split; [eauto|done]|].
      split; [split; [done|by intros [? ?]]|].
      split; [|done]. intros e. split; [done|].
      intros [[= <-] Hn]. destruct Hn. eauto.
    + destruct Hsig as [_ Hsig].
      split; [split; [done|intros H; by specialize (Hsig H)]|].
      split; [split; [done|by intros [? ?]]|].
      split; [|done]. intros e. split.
      * intros [= <-]. split; [done|].
        intros (before & after & ->). by specialize (Hsig ltac:(eauto)).
      * by intros [[= <-] _].
Qed.
